(** * Announcement endpoints of the school management API

    A shallow embedding of [src/backend/routers/announcements.py] and the
    properties its specification states about it.

    The router has five handlers over two document collections.  Documents
    are Python dictionaries ([Dict[str, Any]]), so they are modelled as
    finite maps from field names to dynamically typed values; handlers are
    state-passing computations over the two collections that either return
    a value or raise an exception. *)

From Stdlib Require Import ZArith String Ascii List Bool Lia.
From Stdlib Require Import Sorting.Sorted Sorting.Permutation.
From stdpp Require Import gmap strings list fin_maps.

Open Scope string_scope.
Open Scope Z_scope.

(** ** Python values, exceptions and dictionaries *)

Module Py.

(** The values a stored field can hold: [None], a [str], or the [ObjectId]
    the driver assigns to [_id] (written by its 24 character hex form). *)
Inductive value : Type :=
  | VNone
  | VStr (s : string)
  | VObjectId (hex : string).

#[global] Instance value_eq_dec : EqDecision value.
Proof. solve_decision. Defined.

(** Exceptions that can leave a handler.  [HTTPException] is FastAPI's. *)
Inductive exn : Type :=
  | HTTPException (status_code : Z) (detail : string)
  | ValueError
  | TypeError
  | KeyError.

#[global] Instance exn_eq_dec : EqDecision exn.
Proof. solve_decision. Defined.

(** A computation without store access: an exception or a result. *)
Definition res (A : Type) : Type := exn + A.

Definition rbind {A B} (c : res A) (k : A -> res B) : res B :=
  match c with
  | inl e => inl e
  | inr a => k a
  end.

(** [try: body except (caught...): handler] *)
Definition try_except {A} (body : res A) (caught : exn -> bool)
    (handler : res A) : res A :=
  match body with
  | inl e => if caught e then handler else inl e
  | inr a => inr a
  end.

Definition is_ValueError (e : exn) : bool :=
  match e with ValueError => true | _ => false end.

Definition is_ValueError_or_TypeError (e : exn) : bool :=
  match e with ValueError | TypeError => true | _ => false end.

(** Truth value of an object, as [if x:] and [x or y] test it. *)
Definition truthy (v : value) : bool :=
  match v with
  | VNone => false
  | VStr s => negb (s =? "")%string
  | VObjectId _ => true
  end.

(** [a or b] *)
Definition py_or (a b : value) : value := if truthy a then a else b.

(** [str(x)] *)
Definition py_str (v : value) : string :=
  match v with
  | VNone => "None"
  | VStr s => s
  | VObjectId hex => hex
  end.

(** An [Optional[str]] field of a request model, as a value. *)
Definition of_opt (o : option string) : value :=
  match o with
  | None => VNone
  | Some s => VStr s
  end.

(** [d.get(k)], [d.get(k, default)] and [d[k]]. *)
Definition get (d : gmap string value) (k : string) : value :=
  default VNone (d !! k).

Definition get_default (d : gmap string value) (k : string) (dflt : value)
    : value :=
  default dflt (d !! k).

Definition getitem (d : gmap string value) (k : string) : res value :=
  match d !! k with
  | Some v => inr v
  | None => inl KeyError
  end.

(** Truth value of a dictionary and of the [Optional] result of a lookup. *)
Definition truthy_dict (d : gmap string value) : bool :=
  negb (bool_decide (d = ∅)).

Definition truthy_opt_dict (o : option (gmap string value)) : bool :=
  match o with
  | None => false
  | Some d => truthy_dict d
  end.

(** *** Dates *)

Record date : Type := mkdate { year : Z; month : Z; day : Z }.

Record datetime : Type := mkdatetime {
  dt_date : date;   (* [.date()] *)
  hour : Z;
  minute : Z;
  second : Z;
  microsecond : Z
}.

#[global] Instance date_eq_dec : EqDecision date.
Proof. solve_decision. Defined.

#[global] Instance datetime_eq_dec : EqDecision datetime.
Proof. solve_decision. Defined.

Definition lex (c1 c2 : comparison) : comparison :=
  match c1 with
  | Eq => c2
  | _ => c1
  end.

Definition date_compare (a b : date) : comparison :=
  lex (year a ?= year b) (lex (month a ?= month b) (day a ?= day b)).

Definition datetime_compare (a b : datetime) : comparison :=
  lex (date_compare (dt_date a) (dt_date b))
   (lex (hour a ?= hour b)
     (lex (minute a ?= minute b)
       (lex (second a ?= second b) (microsecond a ?= microsecond b)))).

(** [a < b], [a > b] on dates and [a >= b] on datetimes. *)
Definition date_ltb (a b : date) : bool :=
  match date_compare a b with Lt => true | _ => false end.

Definition date_gtb (a b : date) : bool :=
  match date_compare a b with Gt => true | _ => false end.

Definition datetime_geb (a b : datetime) : bool :=
  match datetime_compare a b with Lt => false | _ => true end.

Definition is_leap (y : Z) : bool :=
  (y mod 4 =? 0) && (negb (y mod 100 =? 0) || (y mod 400 =? 0)).

Definition days_in_month (y m : Z) : Z :=
  if m =? 2 then (if is_leap y then 29 else 28)
  else if (m =? 4) || (m =? 6) || (m =? 9) || (m =? 11) then 30
  else 31.

(** The check the [date] constructor makes ([MINYEAR = 1], [MAXYEAR = 9999]). *)
Definition valid_date (y m d : Z) : bool :=
  (1 <=? y) && (y <=? 9999) && (1 <=? m) && (m <=? 12) &&
  (1 <=? d) && (d <=? days_in_month y m).

(** *** Text

    A [str] is written as the byte string of its UTF-8 encoding (lone
    surrogates encoded like any other code point), so that equality, the
    empty string and the order of two strings, which Python decides code
    point by code point, are those of the byte strings.  [decode] gives the
    code points back; a byte that is not part of a well-formed sequence
    (no [str] is written that way) decodes to [-1], which no pattern
    matches. *)

Definition code (c : ascii) : Z := Z.of_N (N_of_ascii c).

Definition continuation (b : Z) : bool := (128 <=? b) && (b <? 192).

Fixpoint decode (s : string) : list Z :=
  match s with
  | EmptyString => []
  | String c0 s1 =>
      let b0 := code c0 in
      let bad := (-1) :: decode s1 in
      if b0 <? 128 then b0 :: decode s1
      else
        match s1 with
        | EmptyString => bad
        | String c1 s2 =>
            let b1 := code c1 in
            if (192 <=? b0) && (b0 <? 224) then
              let cp := (b0 - 192) * 64 + (b1 - 128) in
              if continuation b1 && (128 <=? cp) then cp :: decode s2
              else bad
            else
              match s2 with
              | EmptyString => bad
              | String c2 s3 =>
                  let b2 := code c2 in
                  if (224 <=? b0) && (b0 <? 240) then
                    let cp :=
                      (b0 - 224) * 4096 + (b1 - 128) * 64 + (b2 - 128) in
                    if continuation b1 && continuation b2 && (2048 <=? cp)
                    then cp :: decode s3
                    else bad
                  else
                    match s3 with
                    | EmptyString => bad
                    | String c3 s4 =>
                        let b3 := code c3 in
                        let cp :=
                          (b0 - 240) * 262144 + (b1 - 128) * 4096
                          + (b2 - 128) * 64 + (b3 - 128) in
                        if (240 <=? b0) && (b0 <? 248)
                           && continuation b1 && continuation b2
                           && continuation b3
                           && (65536 <=? cp) && (cp <=? 1114111)
                        then cp :: decode s4
                        else bad
                    end
              end
        end
  end.

(** The decimal digits of Unicode (category [Nd]): they come in runs of
    ten, zero to nine, each named here by the code point of its zero.  This
    is the table of Unicode 14.0, the one of CPython 3.11; [\d] in a
    pattern and [int] both go by it. *)
Definition decimal_zeros : list Z :=
  [48; 1632; 1776; 1984; 2406; 2534; 2662; 2790; 2918; 3046; 3174; 3302;
   3430; 3558; 3664; 3792; 3872; 4160; 4240; 6112; 6160; 6470; 6608; 6784;
   6800; 6992; 7088; 7232; 7248; 42528; 43216; 43264; 43472; 43504; 43600;
   44016; 65296; 66720; 68912; 69734; 69872; 69942; 70096; 70384; 70736;
   70864; 71248; 71360; 71472; 71904; 72016; 72784; 73040; 73120; 92768;
   92864; 93008; 120782; 120792; 120802; 120812; 120822; 123200; 123632;
   125264; 130032].

Fixpoint decimal_in (zeros : list Z) (c : Z) : option Z :=
  match zeros with
  | [] => None
  | z :: zeros' =>
      if (z <=? c) && (c <? z + 10) then Some (c - z)
      else decimal_in zeros' c
  end.

(** The value of a character as a decimal digit, if it is one. *)
Definition decimal (c : Z) : option Z := decimal_in decimal_zeros c.

(** *** [datetime.strptime(s, '%Y-%m-%d')]

    The library turns the format into the regular expression

      [(?P<Y>\d\d\d\d)-(?P<m>1[0-2]|0[1-9]|[1-9])-(?P<d>3[0-1]|[1-2]\d|0[1-9]|[1-9]| [1-9])]

    matches it at the start of the text, rejects text left over after the
    match, converts the three groups with [int] and builds the date, which
    checks the ranges.  Every failure is a [ValueError]; a first argument
    that is not a [str] is a [TypeError].  [\d] is any decimal digit of
    Unicode, a bracketed range is the ASCII characters it names. *)

Definition in_range (lo hi : string) (c : Z) : bool :=
  match lo, hi with
  | String l EmptyString, String h EmptyString =>
      (code l <=? c) && (c <=? code h)
  | _, _ => false
  end.

Definition is_char (x : string) (c : Z) : bool := in_range x x c.

Definition cls_d (c : Z) : bool :=
  match decimal c with
  | Some _ => true
  | None => false
  end.

(** An alternative of a group is a sequence of character classes. *)
Fixpoint match_seq (classes : list (Z -> bool)) (s : list Z)
    : option (list Z * list Z) :=
  match classes with
  | [] => Some ([], s)
  | p :: ps =>
      match s with
      | [] => None
      | c :: s' =>
          if p c then
            match match_seq ps s' with
            | Some (m, rest) => Some (c :: m, rest)
            | None => None
            end
          else None
      end
  end.

(** A sequence of groups, each a list of alternatives tried in order, with
    backtracking into the alternatives when the rest fails to match. *)
Fixpoint match_groups (groups : list (list (list (Z -> bool))))
    (s : list Z) : option (list (list Z) * list Z) :=
  match groups with
  | [] => Some ([], s)
  | alts :: groups' =>
      (fix try_alts (alts : list (list (Z -> bool))) :=
         match alts with
         | [] => None
         | a :: alts' =>
             match match_seq a s with
             | Some (m, rest) =>
                 match match_groups groups' rest with
                 | Some (ms, r) => Some (m :: ms, r)
                 | None => try_alts alts'
                 end
             | None => try_alts alts'
             end
         end) alts
  end.

Definition re_Y : list (list (Z -> bool)) :=
  [[cls_d; cls_d; cls_d; cls_d]].
Definition re_dash : list (list (Z -> bool)) := [[is_char "-"]].
Definition re_m : list (list (Z -> bool)) :=
  [[is_char "1"; in_range "0" "2"]; [is_char "0"; in_range "1" "9"];
   [in_range "1" "9"]].
Definition re_d : list (list (Z -> bool)) :=
  [[is_char "3"; in_range "0" "1"]; [in_range "1" "2"; cls_d];
   [is_char "0"; in_range "1" "9"]; [in_range "1" "9"];
   [is_char " "; in_range "1" "9"]].

Definition format_regex : list (list (list (Z -> bool))) :=
  [re_Y; re_dash; re_m; re_dash; re_d].

(** [int(s)] on the text of a group: decimal digits of any script, a
    leading blank (the last alternative of [%d]) is skipped. *)
Fixpoint int_acc (acc : Z) (s : list Z) : Z :=
  match s with
  | [] => acc
  | c :: s' =>
      match decimal c with
      | Some v => int_acc (10 * acc + v) s'
      | None => int_acc acc s'
      end
  end.

Definition int (s : list Z) : Z := int_acc 0 s.

Definition strptime (data_string : value) : res datetime :=
  match data_string with
  | VStr s =>
      match match_groups format_regex (decode s) with
      | Some ([Y; _; m; _; d], rest) =>
          match rest with
          | _ :: _ => inl ValueError
          | [] =>
              if valid_date (int Y) (int m) (int d)
              then inr (mkdatetime (mkdate (int Y) (int m) (int d)) 0 0 0 0)
              else inl ValueError
          end
      | _ => inl ValueError
      end
  | _ => inl TypeError
  end.

(** *** [datetime.isoformat()] of an aware UTC datetime

    [YYYY-MM-DDTHH:MM:SS+00:00], with [.ffffff] after the seconds when the
    microsecond is not zero. *)

Definition digit_char (n : Z) : ascii := ascii_of_N (Z.to_N (48 + n mod 10)).

Fixpoint zero_pad (width : nat) (n : Z) : string :=
  match width with
  | O => ""
  | S w => zero_pad w (n / 10) ++ String (digit_char n) ""
  end.

Definition isoformat (dt : datetime) : string :=
  zero_pad 4 (year (dt_date dt)) ++ "-" ++ zero_pad 2 (month (dt_date dt))
  ++ "-" ++ zero_pad 2 (day (dt_date dt)) ++ "T" ++ zero_pad 2 (hour dt)
  ++ ":" ++ zero_pad 2 (minute dt) ++ ":" ++ zero_pad 2 (second dt)
  ++ (if microsecond dt =? 0 then "" else "." ++ zero_pad 6 (microsecond dt))
  ++ "+00:00".

(** *** [list.sort(key=..., reverse=True)]

    [a < b] is defined between two [str] (by code points) and between two
    [ObjectId]; every other pair raises [TypeError]. *)
Definition lt (a b : value) : res bool :=
  match a, b with
  | VStr s, VStr t => inr (String.ltb s t)
  | VObjectId s, VObjectId t => inr (String.ltb s t)
  | _, _ => inl TypeError
  end.

(** The sort is stable, also with [reverse=True]: elements with equal keys
    keep their order.  It is written as an insertion sort that compares
    keys with [<] only, as the library does.  The stable descending order
    of a list is unique, and a comparison raises in some run of any
    comparison sort exactly when the list has two elements or more and its
    keys are not all [str] or all [ObjectId] ([sort_desc_raises] below), so
    the outcome is the library's. *)
Section Sort.
Context {A : Type} (key : A -> value).

Fixpoint insert_desc (x : A) (l : list A) : res (list A) :=
  match l with
  | [] => inr [x]
  | y :: l' =>
      rbind (lt (key x) (key y)) (fun below =>
        if below then rbind (insert_desc x l') (fun r => inr (y :: r))
        else inr (x :: y :: l'))
  end.

Fixpoint sort_desc (l : list A) : res (list A) :=
  match l with
  | [] => inr []
  | x :: l' => rbind (sort_desc l') (insert_desc x)
  end.
End Sort.

End Py.

Import Py.

(** ** The document store

    Modelled from the spec: [announcements_collection] and
    [teachers_collection] are declared in [backend/database.py], which is
    not among the sources.  The specification describes them as collections
    of a document store with atomic single-document operations; the
    handlers call the driver's [find], [find_one], [insert_one],
    [update_one] and [delete_one] on them, and those are modelled here on a
    collection kept as the list of its documents in natural order. *)

Module Mongo.

Abbreviation document := (gmap string value).

Definition collection : Type := list document.

(** The filter [{"_id": id}] with [id] a [str]. *)
Definition matches_id (id : string) (d : document) : bool :=
  bool_decide (d !! "_id" = Some (VStr id)).

Definition find (c : collection) : list document := c.

Definition find_one (id : string) (c : collection) : option document :=
  List.find (matches_id id) c.

(** [insert_one] gives the document a fresh [ObjectId] under [_id] when it
    has none (changing the caller's dictionary too), stores it, and reports
    the id.  [oid] is the id the driver generates. *)
Record InsertOneResult : Type := { inserted_id : value }.

Definition insert_one (d : document) (oid : string) (c : collection)
    : collection * document * InsertOneResult :=
  let d' :=
    match d !! "_id" with
    | Some _ => d
    | None => <["_id" := VObjectId oid]> d
    end in
  ((c ++ [d'])%list, d', {| inserted_id := get d' "_id" |}).

(** [update_one(filter, {"$set": fields})] changes the first matching
    document; [modified_count] counts the documents the update really
    changed, so it is 0 when every field already had the value set. *)
Record UpdateResult : Type := { matched_count : Z; modified_count : Z }.

Fixpoint update_one (id : string) (fields : document) (c : collection)
    : collection * UpdateResult :=
  match c with
  | [] => ([], {| matched_count := 0; modified_count := 0 |})
  | d :: c' =>
      if matches_id id d then
        (fields ∪ d :: c',
         {| matched_count := 1;
            modified_count := if bool_decide (fields ∪ d = d) then 0 else 1 |})
      else
        let '(c'', r) := update_one id fields c' in (d :: c'', r)
  end.

Record DeleteResult : Type := { deleted_count : Z }.

Fixpoint delete_one (id : string) (c : collection)
    : collection * DeleteResult :=
  match c with
  | [] => ([], {| deleted_count := 0 |})
  | d :: c' =>
      if matches_id id d then (c', {| deleted_count := 1 |})
      else let '(c'', r) := delete_one id c' in (d :: c'', r)
  end.

End Mongo.

Import Mongo.

(** ** The handlers *)

Module Announcements.

(** The two collections the router imports. *)
Record db : Type := mkdb {
  announcements_collection : collection;
  teachers_collection : collection
}.

(** A handler reads and writes the collections and returns or raises. *)
Definition M (A : Type) : Type := db -> res A * db.

Definition ret {A} (a : A) : M A := fun s => (inr a, s).

Definition raise {A} (e : exn) : M A := fun s => (inl e, s).

Definition bind {A B} (c : M A) (k : A -> M B) : M B :=
  fun s =>
    match c s with
    | (inl e, s') => (inl e, s')
    | (inr a, s') => k a s'
    end.

Definition lift {A} (c : res A) : M A := fun s => (c, s).

Declare Scope handler_scope.
Delimit Scope handler_scope with handler.
Notation "x <- c ;; k" := (bind c (fun x => k))
  (at level 100, c at next level, right associativity) : handler_scope.
Notation "c ;;; k" := (bind c (fun _ => k))
  (at level 100, right associativity) : handler_scope.

Declare Scope res_scope.
Delimit Scope res_scope with res.
Notation "x <- c ;; k" := (rbind c (fun x => k))
  (at level 100, c at next level, right associativity) : res_scope.

Definition teachers_find_one (id : string) : M (option document) :=
  fun s => (inr (find_one id (teachers_collection s)), s).

Definition announcements_find : M (list document) :=
  fun s => (inr (find (announcements_collection s)), s).

Definition announcements_find_one (id : string) : M (option document) :=
  fun s => (inr (find_one id (announcements_collection s)), s).

Definition announcements_insert_one (d : document) (oid : string)
    : M (document * InsertOneResult) :=
  fun s =>
    let '(c, d', r) := insert_one d oid (announcements_collection s) in
    (inr (d', r), mkdb c (teachers_collection s)).

Definition announcements_update_one (id : string) (fields : document)
    : M UpdateResult :=
  fun s =>
    let '(c, r) := update_one id fields (announcements_collection s) in
    (inr r, mkdb c (teachers_collection s)).

Definition announcements_delete_one (id : string) : M DeleteResult :=
  fun s =>
    let '(c, r) := delete_one id (announcements_collection s) in
    (inr r, mkdb c (teachers_collection s)).

(** The request models. *)
Module AnnouncementCreate.
Record t : Type := mk {
  title : string;
  message : string;
  start_date : option string;
  expiration_date : string
}.
End AnnouncementCreate.

Module AnnouncementUpdate.
Record t : Type := mk {
  title : option string;
  message : option string;
  start_date : option string;
  expiration_date : option string
}.
End AnnouncementUpdate.

Definition Unauthenticated : exn := HTTPException 401 "Authentication required".
Definition NotFound : exn := HTTPException 404 "Announcement not found".
Definition BadOrder : exn :=
  HTTPException 400 "Start date must be before expiration date".
Definition BadFormat : exn :=
  HTTPException 400 "Invalid date format. Use ISO format (YYYY-MM-DD)".
Definition UpdateFailed : exn :=
  HTTPException 500 "Failed to update announcement".

(** *** [get_announcements] *)

(** What an iteration of the loop does after a check: [continue], or go on
    to the next statement. *)
Inductive flow : Type := Continue | Next.

Definition check_expiration (now : date) (announcement : document)
    : res flow :=
  try_except
    (exp_date <- strptime (get announcement "expiration_date") ;;
     if date_ltb (dt_date exp_date) now then inr Continue else inr Next)%res
    is_ValueError_or_TypeError
    (inr Continue).

Definition check_start (now : date) (announcement : document) : res flow :=
  if truthy (get announcement "start_date") then
    try_except
      (s <- getitem announcement "start_date" ;;
       start_date <- strptime s ;;
       if date_gtb (dt_date start_date) now then inr Continue
       else inr Next)%res
      is_ValueError_or_TypeError
      (inr Continue)
  else inr Next.

Fixpoint active_loop (now : date) (cursor : list document)
    (announcements : list document) : res (list document) :=
  match cursor with
  | [] => inr announcements
  | announcement :: cursor' =>
      (f <- check_expiration now announcement ;;
       match f with
       | Continue => active_loop now cursor' announcements
       | Next =>
           f <- check_start now announcement ;;
           match f with
           | Continue => active_loop now cursor' announcements
           | Next =>
               active_loop now cursor' (announcements ++ [announcement])%list
           end
       end)%res
  end.

Definition created_at_key (x : document) : value :=
  get_default x "created_at" (VStr "").

(** [utcnow] is the reading of the clock, [datetime.now(timezone.utc)]. *)
Definition get_announcements (utcnow : datetime) : M (list document) :=
  (let now := dt_date utcnow in
   cursor <- announcements_find ;;
   announcements <- lift (active_loop now cursor []) ;;
   announcements <- lift (sort_desc created_at_key announcements) ;;
   ret announcements)%handler.

(** *** [get_all_announcements] *)

Definition get_all_announcements (teacher_username : string)
    : M (list document) :=
  (teacher <- teachers_find_one teacher_username ;;
   if negb (truthy_opt_dict teacher) then raise Unauthenticated
   else
     announcements <- announcements_find ;;
     announcements <- lift (sort_desc created_at_key announcements) ;;
     ret announcements)%handler.

(** *** [create_announcement] *)

Definition validate_create (announcement : AnnouncementCreate.t) : res unit :=
  try_except
    (exp_date <-
       strptime (VStr (AnnouncementCreate.expiration_date announcement)) ;;
     if truthy (of_opt (AnnouncementCreate.start_date announcement)) then
       start_date <-
         strptime (of_opt (AnnouncementCreate.start_date announcement)) ;;
       if datetime_geb start_date exp_date then inl BadOrder else inr tt
     else inr tt)%res
    is_ValueError
    (inl BadFormat).

(** [utcnow] is the reading of the clock and [oid] the id the driver
    generates for the inserted document. *)
Definition create_announcement (utcnow : datetime) (oid : string)
    (announcement : AnnouncementCreate.t) (teacher_username : string)
    : M document :=
  (teacher <- teachers_find_one teacher_username ;;
   if negb (truthy_opt_dict teacher) then raise Unauthenticated
   else
     let now := utcnow in
     lift (validate_create announcement) ;;;
     let announcement_doc : document :=
       list_to_map
         [("title", VStr (AnnouncementCreate.title announcement));
          ("message", VStr (AnnouncementCreate.message announcement));
          ("start_date", of_opt (AnnouncementCreate.start_date announcement));
          ("expiration_date",
            VStr (AnnouncementCreate.expiration_date announcement));
          ("created_by", VStr teacher_username);
          ("created_at", VStr (isoformat now))] in
     inserted <- announcements_insert_one announcement_doc oid ;;
     let '(announcement_doc, result) := inserted in
     let announcement_doc :=
       <["_id" := VStr (py_str (inserted_id result))]> announcement_doc in
     ret announcement_doc)%handler.

(** *** [update_announcement] *)

Definition validate_update (announcement : AnnouncementUpdate.t)
    (announcement_doc : document) : res unit :=
  if truthy (of_opt (AnnouncementUpdate.expiration_date announcement))
     || truthy (of_opt (AnnouncementUpdate.start_date announcement))
  then
    let exp_date_str :=
      py_or (of_opt (AnnouncementUpdate.expiration_date announcement))
            (get announcement_doc "expiration_date") in
    let start_date_str :=
      py_or (of_opt (AnnouncementUpdate.start_date announcement))
            (get announcement_doc "start_date") in
    if truthy exp_date_str && truthy start_date_str then
      try_except
        (exp_date <- strptime exp_date_str ;;
         start_date <- strptime start_date_str ;;
         if datetime_geb start_date exp_date then inl BadOrder else inr tt)%res
        is_ValueError
        (inl BadFormat)
    else inr tt
  else inr tt.

(** [if field is not None: update_doc[name] = field] *)
Definition set_if_not_None (name : string) (field : option string)
    (update_doc : document) : document :=
  match field with
  | Some v => <[name := VStr v]> update_doc
  | None => update_doc
  end.

Definition prepare_update (announcement : AnnouncementUpdate.t) : document :=
  let update_doc : document := ∅ in
  let update_doc :=
    set_if_not_None "title" (AnnouncementUpdate.title announcement)
      update_doc in
  let update_doc :=
    set_if_not_None "message" (AnnouncementUpdate.message announcement)
      update_doc in
  let update_doc :=
    set_if_not_None "start_date" (AnnouncementUpdate.start_date announcement)
      update_doc in
  let update_doc :=
    set_if_not_None "expiration_date"
      (AnnouncementUpdate.expiration_date announcement) update_doc in
  update_doc.

Definition update_announcement (announcement_id : string)
    (announcement : AnnouncementUpdate.t) (teacher_username : string)
    : M (option document) :=
  (teacher <- teachers_find_one teacher_username ;;
   if negb (truthy_opt_dict teacher) then raise Unauthenticated
   else
     found <- announcements_find_one announcement_id ;;
     match found with
     | None => raise NotFound
     | Some announcement_doc =>
         if negb (truthy_dict announcement_doc) then raise NotFound
         else
           lift (validate_update announcement announcement_doc) ;;;
           let update_doc := prepare_update announcement in
           (if truthy_dict update_doc then
              result <- announcements_update_one announcement_id update_doc ;;
              if modified_count result =? 0 then raise UpdateFailed
              else ret tt
            else ret tt) ;;;
           updated_announcement <- announcements_find_one announcement_id ;;
           ret updated_announcement
     end)%handler.

(** *** [delete_announcement] *)

Definition delete_announcement (announcement_id : string)
    (teacher_username : string) : M document :=
  (teacher <- teachers_find_one teacher_username ;;
   if negb (truthy_opt_dict teacher) then raise Unauthenticated
   else
     result <- announcements_delete_one announcement_id ;;
     if deleted_count result =? 0 then raise NotFound
     else ret {[ "message" := VStr "Announcement deleted successfully" ]})%handler.

End Announcements.

Import Announcements.

(** * The vocabulary of the specification *)

(** A requester is a known teacher when a teacher record has the username
    as its [_id]. *)
Definition known_teacher (teacher_username : string) (s : db) : Prop :=
  exists d, d ∈ teachers_collection s /\
            d !! "_id" = Some (VStr teacher_username).

(** Calendar order, and what it means for a stored or supplied value to
    parse as [YYYY-MM-DD]. *)
Definition date_lt (a b : date) : Prop :=
  year a < year b \/
  (year a = year b /\
   (month a < month b \/ (month a = month b /\ day a < day b))).

Definition parses_to (v : value) (d : date) : Prop :=
  exists dt, strptime v = inr dt /\ dt_date dt = d.

Definition unparsable (v : value) : Prop :=
  forall dt, strptime v <> inr dt.

(** A field is present when its key is there with a value other than
    [None]; it is missing otherwise. *)
Definition present (a : document) (k : string) : Prop :=
  exists v, a !! k = Some v /\ v <> VNone.

(** The exclusion rule of the active listing, in the words of the
    specification. *)
Definition excluded_as_stated (today : date) (a : document) : Prop :=
  ~ present a "expiration_date" \/
  unparsable (get a "expiration_date") \/
  (exists d, parses_to (get a "expiration_date") d /\ date_lt d today) \/
  (present a "start_date" /\
   (unparsable (get a "start_date") \/
    exists d, parses_to (get a "start_date") d /\ date_lt today d)).

Definition list_active_as_stated (utcnow : datetime) (s : db) : Prop :=
  exists l, fst (get_announcements utcnow s) = inr l /\
    forall a, a ∈ announcements_collection s ->
      (a ∉ l <-> excluded_as_stated (dt_date utcnow) a).

(** The rule the handler applies: a start date counts only when it tests
    true, so neither [None] nor the empty string is looked at. *)
Definition excluded (today : date) (a : document) : Prop :=
  ~ present a "expiration_date" \/
  unparsable (get a "expiration_date") \/
  (exists d, parses_to (get a "expiration_date") d /\ date_lt d today) \/
  (truthy (get a "start_date") = true /\
   (unparsable (get a "start_date") \/
    exists d, parses_to (get a "start_date") d /\ date_lt today d)).

(** The decision one iteration of the listing loop takes. *)
Definition keeps (now : date) (a : document) : bool :=
  match check_expiration now a with
  | inr Next =>
      match check_start now a with
      | inr Next => true
      | _ => false
      end
  | _ => false
  end.

(** [x] may stand before [y] in a descending order: its key is not below
    the key of [y]. *)
Definition above {A : Type} (key : A -> value) (x y : A) : Prop :=
  lt (key x) (key y) = inr false.

(** The sort key of a record is a string. *)
Definition text_key {A : Type} (key : A -> value) (x : A) : Prop :=
  exists t, key x = VStr t.

(** [created_at] is a string, or the key is absent. *)
Definition created_at_text (a : document) : Prop :=
  a !! "created_at" = None \/ exists t, a !! "created_at" = Some (VStr t).

(** The sort key the specification names: the stored [created_at], and
    the empty string for a record that has none. *)
Definition stored_created_at (a : document) : value :=
  match a !! "created_at" with
  | Some v => v
  | None => VStr ""
  end.

(** [x] may stand before [y] in a listing ordered by [created_at]
    descending: the two stored keys are strings (or the two are
    [ObjectId]s) and the key of [x] is not below the key of [y] in the
    lexicographic order of strings. *)
Definition not_older (x y : document) : Prop :=
  exists s t,
    (stored_created_at x = VStr s /\ stored_created_at y = VStr t \/
     stored_created_at x = VObjectId s /\
     stored_created_at y = VObjectId t) /\
    String.ltb s t = false.

(** A listing is ordered by [created_at] descending when every record may
    stand before every later one, and records without [created_at] come
    last when only records with the empty key follow them. *)
Definition newest_first (l : list document) : Prop :=
  forall (i j : nat) (x y : document),
    (i < j)%nat -> l !! i = Some x -> l !! j = Some y -> not_older x y.

Definition missing_last (l : list document) : Prop :=
  forall (i j : nat) (x y : document),
    (i < j)%nat -> l !! i = Some x -> l !! j = Some y ->
    x !! "created_at" = None -> stored_created_at y = VStr "".

(** Two date values form a valid pair when both parse and the start is
    strictly before the expiration. *)
Definition pair_ok (start_date_str exp_date_str : value) : Prop :=
  exists ds de, parses_to start_date_str ds /\ parses_to exp_date_str de /\
                date_lt ds de.

Definition is_str (v : value) : Prop := exists t, v = VStr t.

(** The [try] block of the update validation, on the resolved pair. *)
Definition check_pair (start_date_str exp_date_str : value) : res unit :=
  try_except
    (exp_date <- strptime exp_date_str ;;
     start_date <- strptime start_date_str ;;
     if datetime_geb start_date exp_date then inl BadOrder else inr tt)%res
    is_ValueError
    (inl BadFormat).

(** The effective pair of an update in the words of the specification: the
    supplied value when there is one, else the stored one. *)
Definition resolved_as_stated (supplied : option string) (stored : value)
    : value :=
  match supplied with
  | Some v => VStr v
  | None => stored
  end.

Definition update_validation_as_stated (announcement_id : string)
    (u : AnnouncementUpdate.t) (teacher_username : string) (s : db)
    (announcement_doc : document) : Prop :=
  AnnouncementUpdate.expiration_date u <> None \/
  AnnouncementUpdate.start_date u <> None ->
  let e := resolved_as_stated (AnnouncementUpdate.expiration_date u)
             (get announcement_doc "expiration_date") in
  let st := resolved_as_stated (AnnouncementUpdate.start_date u)
              (get announcement_doc "start_date") in
  e <> VNone -> st <> VNone -> ~ pair_ok st e ->
  exists detail,
    update_announcement announcement_id u teacher_username s
      = (inl (HTTPException 400 detail), s).

(** The create validation in the words of the specification. *)
Definition create_validation_as_stated (utcnow : datetime) (oid : string)
    (c : AnnouncementCreate.t) (teacher_username : string) (s : db) : Prop :=
  let rejected :=
    exists detail,
      create_announcement utcnow oid c teacher_username s
        = (inl (HTTPException 400 detail), s) in
  (forall ds de,
     parses_to (of_opt (AnnouncementCreate.start_date c)) ds ->
     parses_to (VStr (AnnouncementCreate.expiration_date c)) de ->
     ~ date_lt ds de -> rejected) /\
  ((exists x, AnnouncementCreate.start_date c = Some x /\
              unparsable (VStr x)) \/
   unparsable (VStr (AnnouncementCreate.expiration_date c)) -> rejected).

(** A title-only update in the words of the specification: it succeeds. *)
Definition title_only (t : string) : AnnouncementUpdate.t :=
  AnnouncementUpdate.mk (Some t) None None None.

Definition no_fields : AnnouncementUpdate.t :=
  AnnouncementUpdate.mk None None None None.

(** An update supplies a field when one of the four is not [None]. *)
Definition supplies_field (u : AnnouncementUpdate.t) : Prop :=
  AnnouncementUpdate.title u <> None \/
  AnnouncementUpdate.message u <> None \/
  AnnouncementUpdate.start_date u <> None \/
  AnnouncementUpdate.expiration_date u <> None.

(** An update that supplies the empty string as expiration date. *)
Definition blank_expiration (t m : option string) : AnnouncementUpdate.t :=
  AnnouncementUpdate.mk t m None (Some "").

Definition title_update_as_stated (announcement_id t teacher_username : string)
    (s : db) : Prop :=
  exists r s',
    update_announcement announcement_id (title_only t) teacher_username s
      = (inr r, s').

(** The four fields an update can set. *)
Definition updatable (k : string) : Prop :=
  k = "title" \/ k = "message" \/ k = "start_date" \/ k = "expiration_date".

(** The value a field has after an update: the supplied one, else the old
    one. *)
Definition merged (supplied : option string) (old : option value)
    : option value :=
  match supplied with
  | Some v => Some (VStr v)
  | None => old
  end.

(** The dates of a create request are acceptable: the expiration date
    parses, and the start date is absent, empty, or parses to a day
    strictly before the expiration date. *)
Definition acceptable_dates (c : AnnouncementCreate.t) : Prop :=
  (exists de, parses_to (VStr (AnnouncementCreate.expiration_date c)) de) /\
  (AnnouncementCreate.start_date c = None \/
   AnnouncementCreate.start_date c = Some "" \/
   exists x, AnnouncementCreate.start_date c = Some x /\
             pair_ok (VStr x) (VStr (AnnouncementCreate.expiration_date c))).

(** The day [today] is inside the window of a create request: not after
    the expiration date, and not before the start date if one is given. *)
Definition in_window (today : date) (c : AnnouncementCreate.t) : Prop :=
  (exists de, parses_to (VStr (AnnouncementCreate.expiration_date c)) de /\
              ~ date_lt de today) /\
  (AnnouncementCreate.start_date c = None \/
   AnnouncementCreate.start_date c = Some "" \/
   exists x ds, AnnouncementCreate.start_date c = Some x /\
                parses_to (VStr x) ds /\ ~ date_lt today ds).

(** The sort key of a record is an [ObjectId]. *)
Definition oid_key {A : Type} (key : A -> value) (x : A) : Prop :=
  exists h, key x = VObjectId h.

(** The keys of a list can be compared with each other: all are strings,
    or all are [ObjectId]s. *)
Definition comparable_keys {A : Type} (key : A -> value) (l : list A)
    : Prop :=
  Forall (text_key key) l \/ Forall (oid_key key) l.

(** The records of a listing that have a given sort key. *)
Definition with_key (k : value) (l : list document) : list document :=
  List.filter (fun a => bool_decide (created_at_key a = k)) l.

(** A reading of the UTC clock: a calendar date and a time of day. *)
Definition valid_clock (dt : datetime) : Prop :=
  valid_date (year (dt_date dt)) (month (dt_date dt)) (day (dt_date dt))
    = true /\
  0 <= hour dt < 24 /\ 0 <= minute dt < 60 /\ 0 <= second dt < 60 /\
  0 <= microsecond dt < 1000000.

(** ** Sample data *)

Definition teacher_t1 : document := {[ "_id" := VStr "t1" ]}.

Definition clock_feb1 : datetime := mkdatetime (mkdate 2025 2 1) 9 30 0 0.

Definition blank_start : document :=
  list_to_map
    [("_id", VStr "a1"); ("title", VStr "Fair"); ("message", VStr "Hall B");
     ("start_date", VStr ""); ("expiration_date", VStr "2025-03-01");
     ("created_at", VStr "2025-01-05T08:00:00+00:00")].

Definition null_created_at (id : string) : document :=
  list_to_map
    [("_id", VStr id); ("title", VStr "Trip"); ("message", VStr "Bus 4");
     ("start_date", VNone); ("expiration_date", VStr "2025-03-01");
     ("created_at", VNone)].

Definition dated : document :=
  list_to_map
    [("_id", VStr "a4"); ("title", VStr "Exam"); ("message", VStr "Midterm");
     ("start_date", VStr "2025-01-01"); ("expiration_date", VStr "2025-03-01");
     ("created_by", VStr "t1");
     ("created_at", VStr "2025-01-02T10:00:00+00:00")].

Definition clock_later : datetime := mkdatetime (mkdate 2025 2 1) 9 30 0 7.

Definition store_dated : db := mkdb [dated] [teacher_t1].

Definition store_blank_start : db := mkdb [blank_start] [teacher_t1].

Definition store_null_created_at : db :=
  mkdb [null_created_at "a2"; null_created_at "a3"] [teacher_t1].

(** Unfolding of the handlers' plumbing. *)
Ltac run :=
  unfold bind, lift, ret, raise, teachers_find_one, announcements_find,
    announcements_find_one, announcements_insert_one,
    announcements_update_one, announcements_delete_one; simpl.

(** * Properties *)

(** ** The store operations *)

Lemma matches_id_true id (d : document) :
  matches_id id d = true <-> d !! "_id" = Some (VStr id).
Proof. unfold matches_id. apply bool_decide_eq_true. Qed.

Lemma matches_id_false id (d : document) :
  matches_id id d = false <-> d !! "_id" <> Some (VStr id).
Proof. unfold matches_id. apply bool_decide_eq_false. Qed.

Lemma find_one_Some id c d :
  find_one id c = Some d -> d ∈ c /\ d !! "_id" = Some (VStr id).
Proof.
  unfold find_one. intros H. apply find_some in H as [Hin Hm].
  split; [by apply list_elem_of_In | by apply matches_id_true].
Qed.

Lemma find_one_None id c :
  find_one id c = None <-> forall d, d ∈ c -> d !! "_id" <> Some (VStr id).
Proof.
  unfold find_one. split.
  - intros H d Hin. apply matches_id_false.
    apply (find_none _ _ H). by apply list_elem_of_In.
  - intros H. destruct (List.find (matches_id id) c) as [d|] eqn:E; [|done].
    apply find_some in E as [Hin Hm]. apply matches_id_true in Hm.
    exfalso. apply (H d); [by apply list_elem_of_In | done].
Qed.

(** A document found by its id has the [_id] key, so it is not empty and
    tests true. *)
Lemma find_one_truthy id c d : find_one id c = Some d -> truthy_dict d = true.
Proof.
  intros H. apply find_one_Some in H as [_ H]. unfold truthy_dict.
  rewrite bool_decide_eq_false_2; [done|]. intros ->.
  by rewrite lookup_empty in H.
Qed.

(** The first document matching an id splits the collection. *)
Lemma find_one_split id c d :
  find_one id c = Some d ->
  exists pre post, c = (pre ++ d :: post)%list /\ find_one id pre = None.
Proof.
  unfold find_one. induction c as [|x c IH]; simpl; [done|].
  destruct (matches_id id x) eqn:E.
  - intros [= ->]. by exists [], c.
  - intros H. destruct (IH H) as (pre & post & -> & Hpre).
    exists (x :: pre), post. split; [done|]. simpl. by rewrite E.
Qed.

Lemma find_one_app id pre d post :
  find_one id pre = None -> d !! "_id" = Some (VStr id) ->
  find_one id (pre ++ d :: post)%list = Some d.
Proof.
  unfold find_one. induction pre as [|x pre IH]; simpl; intros Hpre Hd.
  - apply matches_id_true in Hd. by rewrite Hd.
  - destruct (matches_id id x); [done | by apply IH].
Qed.

Lemma update_one_app id fields pre d post :
  find_one id pre = None -> d !! "_id" = Some (VStr id) ->
  update_one id fields (pre ++ d :: post)%list =
    ((pre ++ (fields ∪ d) :: post)%list,
     {| matched_count := 1;
        modified_count := if bool_decide (fields ∪ d = d) then 0 else 1 |}).
Proof.
  unfold find_one. induction pre as [|x pre IH]; simpl; intros Hpre Hd.
  - apply matches_id_true in Hd. by rewrite Hd.
  - destruct (matches_id id x); [done|]. by rewrite IH.
Qed.

(** ** Authentication *)

Lemma known_teacher_found u s :
  known_teacher u s <->
  exists d, find_one u (teachers_collection s) = Some d.
Proof.
  split.
  - intros (d & Hin & Hid).
    destruct (find_one u (teachers_collection s)) as [d'|] eqn:E; [eauto|].
    exfalso. by apply (proj1 (find_one_None _ _) E d).
  - intros (d & H). apply find_one_Some in H. by exists d.
Qed.

Lemma unknown_teacher_not_found u s :
  ~ known_teacher u s <-> find_one u (teachers_collection s) = None.
Proof.
  rewrite known_teacher_found. split.
  - intros H. destruct (find_one _ _); [|done]. exfalso; eauto.
  - intros -> (d & [=]).
Qed.

Ltac authenticated H :=
  let d := fresh "teacher" in
  let E := fresh "Hteacher" in
  apply known_teacher_found in H as (d & E);
  run; rewrite E; simpl; rewrite (find_one_truthy _ _ _ E); simpl.

(** ** Rejected requests leave the store alone *)

(** C4: a requester without a teacher record gets [Unauthenticated] (401)
    from create, update, delete and list_all, and the store is unchanged:
    the check comes before any access to the announcements. *)
Theorem unknown_teacher_rejected (teacher_username : string) (s : db)
    (utcnow : datetime) (oid announcement_id : string)
    (c : AnnouncementCreate.t) (u : AnnouncementUpdate.t) :
  (forall d, d ∈ teachers_collection s ->
             d !! "_id" <> Some (VStr teacher_username)) ->
  create_announcement utcnow oid c teacher_username s
    = (inl (HTTPException 401 "Authentication required"), s) /\
  update_announcement announcement_id u teacher_username s
    = (inl (HTTPException 401 "Authentication required"), s) /\
  delete_announcement announcement_id teacher_username s
    = (inl (HTTPException 401 "Authentication required"), s) /\
  get_all_announcements teacher_username s
    = (inl (HTTPException 401 "Authentication required"), s).
Proof.
  intros H. apply find_one_None in H.
  unfold create_announcement, update_announcement, delete_announcement,
    get_all_announcements.
  run. rewrite H. simpl. done.
Qed.


(** ** Dates *)

Lemma date_compare_Lt a b : date_compare a b = Lt <-> date_lt a b.
Proof.
  unfold date_compare, date_lt, lex.
  destruct (Z.compare_spec (year a) (year b));
    destruct (Z.compare_spec (month a) (month b));
    destruct (Z.compare_spec (day a) (day b)); split; (done || lia).
Qed.

Lemma date_compare_Gt a b : date_compare a b = Gt <-> date_lt b a.
Proof.
  unfold date_compare, date_lt, lex.
  destruct (Z.compare_spec (year a) (year b));
    destruct (Z.compare_spec (month a) (month b));
    destruct (Z.compare_spec (day a) (day b)); split; (done || lia).
Qed.

Lemma date_ltb_lt a b : date_ltb a b = true <-> date_lt a b.
Proof.
  rewrite <- date_compare_Lt. unfold date_ltb.
  by destruct (date_compare a b).
Qed.

Lemma date_gtb_lt a b : date_gtb a b = true <-> date_lt b a.
Proof.
  rewrite <- date_compare_Gt. unfold date_gtb.
  by destruct (date_compare a b).
Qed.

(** [strptime] raises nothing but [ValueError] and [TypeError], and
    [TypeError] only on a value that is not a string. *)
Lemma strptime_raises v e :
  strptime v = inl e -> is_ValueError_or_TypeError e = true.
Proof.
  unfold strptime. intros H.
  repeat (match type of H with
          | context [match ?x with _ => _ end] => destruct x
          | context [if ?x then _ else _] => destruct x
          end; try discriminate H); by injection H as <-.
Qed.

Lemma strptime_str_raises s e : strptime (VStr s) = inl e -> e = ValueError.
Proof.
  unfold strptime. intros H.
  repeat (match type of H with
          | context [match ?x with _ => _ end] => destruct x
          | context [if ?x then _ else _] => destruct x
          end; try discriminate H); by injection H as <-.
Qed.

(** The parser on sample texts: digits of any script count where the
    pattern has [\d] (the year, and the second digit of a day from 10 to
    29), months and days may come without a leading zero, and nothing may
    follow the day. *)
Example strptime_plain :
  strptime (VStr "2025-01-10") = inr (mkdatetime (mkdate 2025 1 10) 0 0 0 0).
Proof. reflexivity. Qed.

Example strptime_fullwidth_year :
  strptime (VStr "２０２５-01-10")
    = inr (mkdatetime (mkdate 2025 1 10) 0 0 0 0).
Proof. reflexivity. Qed.

Example strptime_arabic_indic_year :
  strptime (VStr "٢٠٢٥-1-5") = inr (mkdatetime (mkdate 2025 1 5) 0 0 0 0).
Proof. reflexivity. Qed.

Example strptime_fullwidth_day_digit :
  strptime (VStr "2025-01-1０")
    = inr (mkdatetime (mkdate 2025 1 10) 0 0 0 0).
Proof. reflexivity. Qed.

Example strptime_fullwidth_month :
  strptime (VStr "2025-０1-10") = inl ValueError.
Proof. reflexivity. Qed.

Example strptime_trailing_text :
  strptime (VStr "2025-01-10 ") = inl ValueError.
Proof. reflexivity. Qed.

Example strptime_no_such_day :
  strptime (VStr "2025-02-30") = inl ValueError.
Proof. reflexivity. Qed.

Lemma unparsable_raises v : unparsable v <-> exists e, strptime v = inl e.
Proof.
  unfold unparsable. destruct (strptime v) as [e|dt]; split.
  - eauto.
  - intros _ dt [=].
  - intros H. by destruct (H dt).
  - intros (e & [=]).
Qed.

(** ** The active listing *)

(** Neither check of the loop lets an exception out. *)
Lemma check_expiration_cases now a :
  (exists dt, strptime (get a "expiration_date") = inr dt /\
     check_expiration now a =
       inr (if date_ltb (dt_date dt) now then Continue else Next)) \/
  ((exists e, strptime (get a "expiration_date") = inl e) /\
     check_expiration now a = inr Continue).
Proof.
  unfold check_expiration.
  destruct (strptime (get a "expiration_date")) as [e|dt] eqn:E; simpl.
  - right. split; [eauto|]. by rewrite (strptime_raises _ _ E).
  - left. exists dt. split; [done|]. by destruct (date_ltb _ _).
Qed.

Lemma check_start_cases now a :
  (truthy (get a "start_date") = false /\ check_start now a = inr Next) \/
  (truthy (get a "start_date") = true /\
   ((exists dt, strptime (get a "start_date") = inr dt /\
       check_start now a =
         inr (if date_gtb (dt_date dt) now then Continue else Next)) \/
    ((exists e, strptime (get a "start_date") = inl e) /\
       check_start now a = inr Continue))).
Proof.
  unfold check_start.
  destruct (truthy (get a "start_date")) eqn:T; [right | by left].
  split; [done|]. unfold getitem, get in *.
  destruct (a !! "start_date") as [v|] eqn:L; simpl in *; [|done].
  destruct (strptime v) as [e|dt] eqn:E; simpl.
  - right. split; [eauto|]. by rewrite (strptime_raises _ _ E).
  - left. exists dt. split; [done|]. by destruct (date_gtb _ _).
Qed.

Lemma active_loop_filter now cursor announcements :
  active_loop now cursor announcements
    = inr (announcements ++ List.filter (keeps now) cursor)%list.
Proof.
  revert announcements.
  induction cursor as [|a cursor IH]; intros acc; simpl.
  - by rewrite app_nil_r.
  - unfold keeps.
    destruct (check_expiration_cases now a)
      as [(dt & _ & ->) | (_ & ->)]; simpl; [|apply IH].
    destruct (date_ltb (dt_date dt) now); simpl; [apply IH|].
    destruct (check_start_cases now a)
      as [(_ & ->) | (_ & [(dt' & _ & ->) | (_ & ->)])]; simpl.
    + rewrite IH. by rewrite <- app_assoc.
    + destruct (date_gtb (dt_date dt') now); simpl; [apply IH|].
      rewrite IH. by rewrite <- app_assoc.
    + apply IH.
Qed.

Lemma missing_unparsable (a : document) k :
  ~ present a k -> unparsable (get a k).
Proof.
  intros H dt. unfold get, present in *.
  destruct (a !! k) as [v|]; simpl; [|done].
  destruct v; try done. exfalso. apply H. by eexists.
Qed.

(** A record is kept exactly when the rule does not exclude it. *)
Lemma keeps_spec today a : keeps today a = true <-> ~ excluded today a.
Proof.
  unfold keeps, excluded, parses_to.
  destruct (check_expiration_cases today a)
    as [(dt & E & ->) | ((e & E) & ->)].
  2:{ split; [done|]. intros H. exfalso. apply H. right. left.
      apply unparsable_raises. eauto. }
  assert (Hexp : ~ (~ present a "expiration_date")).
  { intros H. by apply (missing_unparsable _ _ H dt). }
  assert (Hpar : ~ unparsable (get a "expiration_date")).
  { intros H. by apply (H dt). }
  destruct (date_ltb (dt_date dt) today) eqn:Lt.
  { split; [done|]. intros H. exfalso. apply H. do 2 right. left.
    exists (dt_date dt). split; [eauto | by apply date_ltb_lt]. }
  assert (Hlt : ~ exists d, (exists dt0,
             strptime (get a "expiration_date") = inr dt0 /\
             dt_date dt0 = d) /\ date_lt d today).
  { intros (d & (dt0 & E0 & <-) & H). rewrite E in E0.
    injection E0 as <-. apply date_ltb_lt in H. congruence. }
  destruct (check_start_cases today a)
    as [(T & ->) | (T & [(dt' & E' & ->) | ((e' & E') & ->)])].
  - split; [|done]. intros _ [H|[H|[H|[H _]]]]; try done. congruence.
  - destruct (date_gtb (dt_date dt') today) eqn:Gt.
    + split; [done|]. intros H. exfalso. apply H. do 3 right.
      split; [done|]. right. exists (dt_date dt').
      split; [eauto | by apply date_gtb_lt].
    + split; [|done]. intros _ [H|[H|[H|[_ [H|H]]]]]; try done.
      * by apply (H dt').
      * destruct H as (d & (dt0 & E0 & <-) & H). rewrite E' in E0.
        injection E0 as <-. apply date_gtb_lt in H. congruence.
  - split; [done|]. intros H. exfalso. apply H. do 3 right.
    split; [done|]. left. apply unparsable_raises. eauto.
Qed.

(** ** Sorting by key, newest first *)

Section SortFacts.
Context {A : Type} (key : A -> value).

Lemma insert_desc_perm x l l' :
  insert_desc key x l = inr l' -> Permutation (x :: l) l'.
Proof.
  revert l'. induction l as [|y l IH]; simpl; intros l'.
  - by intros [= <-].
  - destruct (lt (key x) (key y)) as [e|[]]; simpl; [done| |].
    + destruct (insert_desc key x l) as [e|r]; simpl; [done|].
      intros [= <-]. rewrite perm_swap. constructor. by apply IH.
    + by intros [= <-].
Qed.

Lemma sort_desc_perm l l' : sort_desc key l = inr l' -> Permutation l l'.
Proof.
  revert l'. induction l as [|x l IH]; simpl; intros l'.
  - by intros [= <-].
  - destruct (sort_desc key l) as [e|r]; simpl; [done|].
    intros H. apply insert_desc_perm in H. rewrite <- H.
    constructor. by apply IH.
Qed.

(** Keys that are all strings can always be sorted. *)
Lemma insert_desc_text x l :
  text_key key x -> Forall (text_key key) l ->
  exists l', insert_desc key x l = inr l'.
Proof.
  intros (t & Hx). induction 1 as [|y l (u & Hy) _ IH]; simpl; [eauto|].
  rewrite Hx, Hy. simpl. destruct (String.ltb t u); [|eauto].
  destruct IH as (r & ->). simpl. eauto.
Qed.

Lemma sort_desc_text l :
  Forall (text_key key) l -> exists l', sort_desc key l = inr l'.
Proof.
  induction 1 as [|x l Hx Hl IH]; simpl; [eauto|].
  destruct IH as (r & E). rewrite E. simpl.
  apply insert_desc_text; [done|].
  apply sort_desc_perm in E. by rewrite <- E.
Qed.

(** Every exception of the sort is a [TypeError]. *)
Lemma insert_desc_raises x l e : insert_desc key x l = inl e -> e = TypeError.
Proof.
  induction l as [|y l IH]; simpl; [done|].
  destruct (lt (key x) (key y)) as [e'|[]] eqn:E; simpl.
  - intros [= <-]. unfold lt in E.
    by destruct (key x), (key y); simplify_eq.
  - destruct (insert_desc key x l); simpl; [|done].
    intros [= <-]. by apply IH.
  - done.
Qed.

Lemma sort_desc_raises_TypeError l e :
  sort_desc key l = inl e -> e = TypeError.
Proof.
  induction l as [|x l IH]; simpl; [done|].
  destruct (sort_desc key l) as [e'|r]; simpl.
  - intros [= <-]. by apply IH.
  - apply insert_desc_raises.
Qed.
End SortFacts.

Lemma created_at_text_key a : created_at_text a -> text_key created_at_key a.
Proof.
  unfold created_at_key, get_default, text_key.
  intros [-> | (t & ->)]; simpl; eauto.
Qed.

Lemma get_announcements_eq utcnow s :
  get_announcements utcnow s =
    (sort_desc created_at_key
       (List.filter (keeps (dt_date utcnow)) (announcements_collection s)), s).
Proof.
  unfold get_announcements, find. run. rewrite active_loop_filter. simpl.
  by destruct (sort_desc _ _).
Qed.

Lemma kept_spec today (c : collection) a :
  a ∈ List.filter (keeps today) c <-> a ∈ c /\ ~ excluded today a.
Proof.
  rewrite !list_elem_of_In, filter_In, <- keeps_spec. done.
Qed.

(** C1, as the handler has it: [list_active] changes nothing, its loop
    never raises whatever the stored date fields hold, and it returns the
    records that are not excluded, where a record is excluded exactly when
    its [expiration_date] is missing, unparsable or before today, or its
    [start_date] tests true (it is neither [None] nor empty) and is
    unparsable or after today.  The listing as a whole returns whenever the
    [created_at] of the records it keeps is a string or absent; the only
    exception it can raise is the [TypeError] of sorting other keys. *)
Theorem list_active_filter (utcnow : datetime) (s : db) :
  let today := dt_date utcnow in
  snd (get_announcements utcnow s) = s /\
  (exists kept,
     active_loop today (find (announcements_collection s)) [] = inr kept /\
     (forall a, a ∈ kept <->
                a ∈ announcements_collection s /\ ~ excluded today a) /\
     fst (get_announcements utcnow s) = sort_desc created_at_key kept) /\
  (forall l, fst (get_announcements utcnow s) = inr l ->
     forall a, a ∈ l <->
               a ∈ announcements_collection s /\ ~ excluded today a) /\
  (forall e, fst (get_announcements utcnow s) = inl e -> e = TypeError) /\
  ((forall a, a ∈ announcements_collection s -> ~ excluded today a ->
              created_at_text a) ->
   exists l, fst (get_announcements utcnow s) = inr l).
Proof.
  intros today. rewrite get_announcements_eq. simpl. fold today.
  split; [done|]. split; [|split; [|split]].
  - exists (List.filter (keeps today) (announcements_collection s)).
    split; [apply (active_loop_filter today _ []) |].
    split; [apply kept_spec | done].
  - intros l H a. apply sort_desc_perm in H.
    rewrite <- kept_spec. by rewrite H.
  - apply sort_desc_raises_TypeError.
  - intros H. apply sort_desc_text. apply Forall_forall. intros a Ha.
    apply created_at_text_key. apply kept_spec in Ha as [Hin Hex]. auto.
Qed.

(** The rule as the specification words it fails on a record whose
    [start_date] is the empty string: present and unparsable, yet listed.
    And a listing can raise: two listed records with a null [created_at]
    make the sort compare [None] with [None]. *)
Lemma list_active_counterexample :
  ~ list_active_as_stated clock_feb1 store_blank_start /\
  fst (get_announcements clock_feb1 store_null_created_at) = inl TypeError.
Proof.
  split; [|by vm_compute].
  intros (l & Hl & H).
  assert (E : fst (get_announcements clock_feb1 store_blank_start)
              = inr [blank_start]) by reflexivity.
  rewrite E in Hl. injection Hl as <-.
  apply (proj2 (H blank_start ltac:(by left))); [|by left].
  do 3 right. split.
  - exists (VStr ""). split; [by vm_compute | done].
  - left. intros dt. by vm_compute.
Qed.

(** ** The order of the listings *)

Lemma string_compare_Lt_trans a b c :
  String.compare a b = Lt -> String.compare b c = Lt ->
  String.compare a c = Lt.
Proof.
  revert b c. induction a as [|x a IH]; intros [|y b] [|z c]; simpl;
    try done.
  unfold Ascii.compare.
  destruct (N.compare_spec (N_of_ascii x) (N_of_ascii y)),
    (N.compare_spec (N_of_ascii y) (N_of_ascii z)),
    (N.compare_spec (N_of_ascii x) (N_of_ascii z));
    try done; try lia; eauto.
Qed.

Lemma string_ltb_asym a b : String.ltb a b = true -> String.ltb b a = false.
Proof.
  unfold String.ltb. rewrite (String.compare_antisym b a).
  by destruct (String.compare a b).
Qed.

Lemma string_ltb_false_trans a b c :
  String.ltb a b = false -> String.ltb b c = false -> String.ltb a c = false.
Proof.
  unfold String.ltb. intros Hab Hbc.
  destruct (String.compare a c) eqn:Hac; try done. exfalso.
  destruct (String.compare b c) eqn:E; try done.
  - apply String.compare_eq_iff in E as ->. by rewrite Hac in Hab.
  - rewrite String.compare_antisym in E.
    destruct (String.compare c b) eqn:Hcb; try done.
    by rewrite (string_compare_Lt_trans _ _ _ Hac Hcb) in Hab.
Qed.

Lemma string_ltb_empty t : String.ltb "" t = false -> t = "".
Proof. by destruct t. Qed.

Lemma lt_asym a b : lt a b = inr true -> lt b a = inr false.
Proof.
  destruct a, b; simpl; try done; intros [= H];
    by rewrite (string_ltb_asym _ _ H).
Qed.

Lemma lt_false_trans a b c :
  lt a b = inr false -> lt b c = inr false -> lt a c = inr false.
Proof.
  destruct a, b, c; simpl; try done; intros [= H1] [= H2];
    by rewrite (string_ltb_false_trans _ _ _ H1 H2).
Qed.

Section Sorted.
Context {A : Type} (key : A -> value).

Lemma insert_desc_sorted x l l' :
  StronglySorted (above key) l -> insert_desc key x l = inr l' ->
  StronglySorted (above key) l'.
Proof.
  intros Hl. revert l'.
  induction Hl as [|y l Hl IH Hy]; simpl; intros l'.
  - intros [= <-]. repeat constructor.
  - destruct (lt (key x) (key y)) as [e|[]] eqn:E; simpl; [done| |].
    + destruct (insert_desc key x l) as [e|r] eqn:Er; simpl; [done|].
      intros [= <-]. constructor; [by apply IH|].
      apply insert_desc_perm in Er. rewrite <- Er.
      constructor; [by apply lt_asym | done].
    + intros [= <-]. constructor; [by constructor|].
      constructor; [done|].
      eapply Forall_impl; [exact Hy|]. intros z Hz.
      by apply (lt_false_trans _ (key y)).
Qed.

Lemma sort_desc_sorted l l' :
  sort_desc key l = inr l' -> StronglySorted (above key) l'.
Proof.
  revert l'. induction l as [|x l IH]; simpl; intros l'.
  - intros [= <-]. constructor.
  - destruct (sort_desc key l) as [e|r]; simpl; [done|].
    apply insert_desc_sorted. by apply IH.
Qed.

Lemma sort_desc_lookup l l' (i j : nat) x y :
  sort_desc key l = inr l' -> (i < j)%nat ->
  l' !! i = Some x -> l' !! j = Some y ->
  lt (key x) (key y) = inr false.
Proof.
  intros H. apply sort_desc_sorted in H. revert i j.
  induction H as [|z l' Hl IH Hz]; intros i j Hij Hi Hj; [done|].
  destruct j as [|j]; [lia|]. simpl in Hj.
  destruct i as [|i]; simpl in Hi.
  - injection Hi as ->. rewrite Forall_forall in Hz. apply Hz.
    by eapply list_elem_of_lookup_2.
  - apply (IH i j); [lia | done | done].
Qed.
End Sorted.

Lemma created_at_key_stored a : created_at_key a = stored_created_at a.
Proof.
  unfold created_at_key, get_default, stored_created_at.
  by destruct (a !! "created_at").
Qed.

Lemma sort_desc_newest_first l l' :
  sort_desc created_at_key l = inr l' -> newest_first l' /\ missing_last l'.
Proof.
  intros H.
  assert (Hlt : forall (i j : nat) x y, (i < j)%nat ->
            l' !! i = Some x -> l' !! j = Some y ->
            lt (stored_created_at x) (stored_created_at y) = inr false).
  { intros i j x y Hij Hi Hj. rewrite <- !created_at_key_stored.
    by apply (sort_desc_lookup created_at_key l l' i j). }
  split; intros i j x y Hij Hi Hj.
  - specialize (Hlt i j x y Hij Hi Hj). unfold not_older.
    destruct (stored_created_at x) as [|a|a],
      (stored_created_at y) as [|b|b]; simpl in Hlt; try done;
      injection Hlt as Hlt; exists a, b; split; auto.
  - intros Hx. specialize (Hlt i j x y Hij Hi Hj).
    unfold stored_created_at in Hlt at 1. rewrite Hx in Hlt.
    destruct (stored_created_at y); simpl in Hlt; try done.
    injection Hlt as Hlt. by rewrite (string_ltb_empty _ Hlt).
Qed.

Lemma get_all_announcements_eq teacher_username s :
  known_teacher teacher_username s ->
  get_all_announcements teacher_username s =
    (sort_desc created_at_key (announcements_collection s), s).
Proof.
  intros H. unfold get_all_announcements, find. authenticated H.
  by destruct (sort_desc _ _).
Qed.

(** C5: whatever [list_active] and [list_all] return is the listed records
    ordered by the stored [created_at] descending under the lexicographic
    comparison of strings; the handlers' sort key is the stored
    [created_at], the empty string for a record without one, and only
    records with the empty key come after such a record.  Both return when
    every stored [created_at] is a string or absent. *)
Theorem listings_newest_first (utcnow : datetime) (teacher_username : string)
    (s : db) :
  (forall l, fst (get_announcements utcnow s) = inr l ->
     newest_first l /\ missing_last l /\
     Permutation
       (List.filter (keeps (dt_date utcnow)) (announcements_collection s)) l) /\
  (forall l, fst (get_all_announcements teacher_username s) = inr l ->
     newest_first l /\ missing_last l /\
     Permutation (announcements_collection s) l) /\
  (forall a : document,
     created_at_key a = stored_created_at a /\
     (a !! "created_at" = None -> created_at_key a = VStr "")) /\
  (Forall created_at_text (announcements_collection s) ->
   (exists l, fst (get_announcements utcnow s) = inr l) /\
   (known_teacher teacher_username s ->
    exists l, fst (get_all_announcements teacher_username s) = inr l)).
Proof.
  split; [|split; [|split]].
  - rewrite get_announcements_eq. simpl. intros l H.
    destruct (sort_desc_newest_first _ _ H).
    by apply sort_desc_perm in H.
  - intros l H.
    destruct (decide (find_one teacher_username (teachers_collection s) = None))
      as [N|N].
    + apply unknown_teacher_not_found in N.
      exfalso. revert H. unfold get_all_announcements. run.
      apply unknown_teacher_not_found in N. by rewrite N.
    + assert (K : known_teacher teacher_username s).
      { apply known_teacher_found.
        destruct (find_one _ _); [eauto | done]. }
      rewrite (get_all_announcements_eq _ _ K) in H. simpl in H.
      destruct (sort_desc_newest_first _ _ H).
      by apply sort_desc_perm in H.
  - intros a. split; [apply created_at_key_stored|].
    intros H. unfold created_at_key, get_default. by rewrite H.
  - intros H. split.
    + rewrite get_announcements_eq. simpl. apply sort_desc_text.
      apply Forall_forall. intros a Ha. apply created_at_text_key.
      rewrite Forall_forall in H. apply H.
      by apply kept_spec in Ha as [Ha _].
    + intros K. rewrite (get_all_announcements_eq _ _ K). simpl.
      apply sort_desc_text. eapply Forall_impl; [exact H|].
      apply created_at_text_key.
Qed.

(** ** Updates *)

Lemma prepare_update_no_id u : prepare_update u !! "_id" = None.
Proof.
  unfold prepare_update, set_if_not_None.
  destruct u as [[?|] [?|] [?|] [?|]]; by simpl.
Qed.

Lemma validate_update_eq u doc :
  validate_update u doc =
    if truthy (of_opt (AnnouncementUpdate.expiration_date u))
       || truthy (of_opt (AnnouncementUpdate.start_date u))
    then
      let e := py_or (of_opt (AnnouncementUpdate.expiration_date u))
                 (get doc "expiration_date") in
      let st := py_or (of_opt (AnnouncementUpdate.start_date u))
                  (get doc "start_date") in
      if truthy e && truthy st then check_pair st e else inr tt
    else inr tt.
Proof. reflexivity. Qed.

(** What [update_announcement] does for a known teacher on a record that
    exists: validate, then write the supplied fields if there are any. *)
Lemma update_announcement_found id u teacher_username s doc :
  known_teacher teacher_username s ->
  find_one id (announcements_collection s) = Some doc ->
  exists pre post,
    announcements_collection s = (pre ++ doc :: post)%list /\
    find_one id pre = None /\
    update_one id (prepare_update u) (announcements_collection s) =
      ((pre ++ (prepare_update u ∪ doc) :: post)%list,
       {| matched_count := 1;
          modified_count :=
            if bool_decide (prepare_update u ∪ doc = doc) then 0 else 1 |}) /\
    update_announcement id u teacher_username s =
      match validate_update u doc with
      | inl e => (inl e, s)
      | inr _ =>
          if truthy_dict (prepare_update u) then
            if bool_decide (prepare_update u ∪ doc = doc)
            then (inl UpdateFailed, s)
            else (inr (Some (prepare_update u ∪ doc)),
                  mkdb (pre ++ (prepare_update u ∪ doc) :: post)%list
                       (teachers_collection s))
          else (inr (Some doc), s)
      end.
Proof.
  intros K F. destruct (find_one_split _ _ _ F) as (pre & post & E & Hpre).
  pose proof (find_one_Some _ _ _ F) as [_ Hid].
  exists pre, post. split; [done|]. split; [done|].
  assert (U := update_one_app id (prepare_update u) pre doc post Hpre Hid).
  split; [by rewrite E|].
  unfold update_announcement. authenticated K. rewrite F.
  rewrite (find_one_truthy _ _ _ F). simpl.
  destruct (validate_update u doc) as [e|[]]; [done|].
  destruct (truthy_dict (prepare_update u)); simpl; [|by rewrite F].
  destruct s as [c t]. simpl in *. subst c. rewrite U. simpl.
  case_bool_decide as Hsame; simpl.
  - by rewrite Hsame.
  - rewrite find_one_app; [done | done |].
    rewrite lookup_union_r; [done | apply prepare_update_no_id].
Qed.

(** C7: an update by a known teacher on an existing record that supplies
    no field is not an error, writes nothing, and returns the record as it
    is stored. *)
Theorem update_without_fields (announcement_id teacher_username : string)
    (s : db) (doc : document) :
  known_teacher teacher_username s ->
  find_one announcement_id (announcements_collection s) = Some doc ->
  update_announcement announcement_id no_fields teacher_username s
    = (inr (Some doc), s).
Proof.
  intros K F.
  destruct (update_announcement_found _ no_fields _ _ _ K F)
    as (pre & post & _ & _ & _ & ->).
  done.
Qed.

Lemma t1_known (c : collection) : known_teacher "t1" (mkdb c [teacher_t1]).
Proof. exists teacher_t1. split; [by left | by vm_compute]. Qed.

Lemma update_without_fields_witness :
  known_teacher "t1" store_dated /\
  find_one "a4" (announcements_collection store_dated) = Some dated /\
  update_announcement "a4" no_fields "t1" store_dated
    = (inr (Some dated), store_dated).
Proof.
  split; [apply t1_known|]. split; [reflexivity|].
  apply update_without_fields; [apply t1_known | reflexivity].
Defined.

Lemma title_only_union t (doc : document) :
  prepare_update (title_only t) ∪ doc = <["title" := VStr t]> doc.
Proof.
  unfold prepare_update, title_only, set_if_not_None. simpl.
  by rewrite insert_empty, <- insert_union_singleton_l.
Qed.

Lemma insert_same_iff (doc : document) k v :
  <[k := v]> doc = doc <-> doc !! k = Some v.
Proof.
  split; [|apply insert_id].
  intros H. rewrite <- H. apply lookup_insert_eq.
Qed.

(** C6, as the handler has it: an update by a known teacher that supplies
    only a title is never validated against the dates.  When the title
    differs from the stored one it succeeds, the record gets the new title
    and keeps every other field, and no other record changes.  When the
    title is the stored one the store reports nothing modified and the
    update fails with [InternalError] (500), the store unchanged. *)
Theorem update_title_only (announcement_id t teacher_username : string)
    (s : db) (doc : document) :
  known_teacher teacher_username s ->
  find_one announcement_id (announcements_collection s) = Some doc ->
  (forall d, validate_update (title_only t) d = inr tt) /\
  (doc !! "title" <> Some (VStr t) ->
   exists pre post,
     announcements_collection s = (pre ++ doc :: post)%list /\
     find_one announcement_id pre = None /\
     update_announcement announcement_id (title_only t) teacher_username s =
       (inr (Some (<["title" := VStr t]> doc)),
        mkdb (pre ++ <["title" := VStr t]> doc :: post)%list
             (teachers_collection s)) /\
     (<["title" := VStr t]> doc) !! "title" = Some (VStr t) /\
     forall k, k <> "title" -> (<["title" := VStr t]> doc) !! k = doc !! k) /\
  (doc !! "title" = Some (VStr t) ->
   update_announcement announcement_id (title_only t) teacher_username s =
     (inl (HTTPException 500 "Failed to update announcement"), s)).
Proof.
  intros K F. split; [done|].
  destruct (update_announcement_found _ (title_only t) _ _ _ K F)
    as (pre & post & E & Hpre & _ & ->).
  rewrite title_only_union. simpl. split.
  - intros Hne. exists pre, post. split; [done|]. split; [done|].
    rewrite bool_decide_eq_false_2; [|by rewrite insert_same_iff].
    split; [done|]. split; [apply lookup_insert_eq|].
    intros k Hk. by apply lookup_insert_ne.
  - intros He. rewrite bool_decide_eq_true_2; [done|].
    by apply insert_same_iff.
Qed.

Lemma update_title_only_witness :
  known_teacher "t1" store_dated /\
  find_one "a4" (announcements_collection store_dated) = Some dated /\
  update_announcement "a4" (title_only "Quiz") "t1" store_dated =
    (inr (Some (<["title" := VStr "Quiz"]> dated)),
     mkdb [<["title" := VStr "Quiz"]> dated] [teacher_t1]).
Proof.
  assert (K : known_teacher "t1" store_dated) by apply t1_known.
  assert (F : find_one "a4" (announcements_collection store_dated)
              = Some dated) by reflexivity.
  split; [done|]. split; [done|].
  destruct (update_title_only "a4" "Quiz" "t1" store_dated dated K F)
    as (_ & H & _).
  destruct H as (pre & post & E & Hpre & -> & _); [by vm_compute|].
  destruct pre as [|x pre]; simpl in E.
  - injection E as <-. done.
  - injection E as -> E. by destruct pre.
Defined.

(** The specification's "succeeds" fails when the title supplied is the
    one already stored. *)
Lemma update_title_only_counterexample :
  known_teacher "t1" store_dated /\
  find_one "a4" (announcements_collection store_dated) = Some dated /\
  ~ title_update_as_stated "a4" "Exam" "t1" store_dated.
Proof.
  split; [apply t1_known|]. split; [reflexivity|].
  intros (r & s' & H).
  assert (E : fst (update_announcement "a4" (title_only "Exam") "t1"
                     store_dated) = inl UpdateFailed) by (by vm_compute).
  by rewrite H in E.
Qed.

Lemma supplies_field_truthy u :
  supplies_field u <-> truthy_dict (prepare_update u) = true.
Proof.
  unfold supplies_field, truthy_dict, prepare_update, set_if_not_None.
  destruct u as [[?|] [?|] [?|] [?|]]; simpl;
    first [ rewrite bool_decide_eq_false_2 by apply insert_non_empty
          | rewrite bool_decide_eq_true_2 by done ];
    simpl; naive_solver.
Qed.

(** C8: when an update by a known teacher on an existing record passes
    validation and supplies a field, a write is made; if the store reports
    zero records modified, which it does exactly when every supplied field
    already has the supplied value, the update fails with [InternalError]
    (500) and the store is as before, and otherwise the update succeeds. *)
Theorem update_zero_modified (announcement_id teacher_username : string)
    (u : AnnouncementUpdate.t) (s : db) (doc : document) :
  known_teacher teacher_username s ->
  find_one announcement_id (announcements_collection s) = Some doc ->
  validate_update u doc = inr tt ->
  supplies_field u ->
  let result :=
    snd (update_one announcement_id (prepare_update u)
           (announcements_collection s)) in
  (modified_count result = 0 <-> prepare_update u ∪ doc = doc) /\
  (modified_count result = 0 ->
   update_announcement announcement_id u teacher_username s =
     (inl (HTTPException 500 "Failed to update announcement"), s)) /\
  (modified_count result <> 0 ->
   exists r s',
     update_announcement announcement_id u teacher_username s = (inr r, s')).
Proof.
  intros K F V W result.
  destruct (update_announcement_found _ u _ _ _ K F)
    as (pre & post & E & Hpre & U & ->).
  subst result. rewrite U, V. simpl.
  apply supplies_field_truthy in W. rewrite W.
  case_bool_decide as Hsame; simpl.
  - split; [done|]. split; [done|]. done.
  - split; [done|]. split; [done|]. eauto.
Qed.

Lemma update_zero_modified_witness :
  known_teacher "t1" store_dated /\
  find_one "a4" (announcements_collection store_dated) = Some dated /\
  validate_update (title_only "Exam") dated = inr tt /\
  supplies_field (title_only "Exam") /\
  update_announcement "a4" (title_only "Exam") "t1" store_dated =
    (inl (HTTPException 500 "Failed to update announcement"), store_dated).
Proof.
  assert (K : known_teacher "t1" store_dated) by apply t1_known.
  assert (F : find_one "a4" (announcements_collection store_dated)
              = Some dated) by reflexivity.
  assert (W : supplies_field (title_only "Exam")) by (by left).
  do 4 (split; [done|]).
  apply (update_zero_modified "a4" "t1" (title_only "Exam") store_dated
           dated K F eq_refl W).
  by vm_compute.
Defined.

(** C9: the validation of an update is skipped when neither supplied date
    tests true, while every supplied field that is not [None] is written.
    So an update by a known teacher that supplies the empty string as
    [expiration_date] (and no [start_date]) is not validated, succeeds on a
    record whose expiration date was something else, and leaves the stored
    record with an expiration date that does not parse. *)
Theorem update_blank_expiration (announcement_id teacher_username : string)
    (t m : option string) (s : db) (doc : document) :
  known_teacher teacher_username s ->
  find_one announcement_id (announcements_collection s) = Some doc ->
  doc !! "expiration_date" <> Some (VStr "") ->
  let u := blank_expiration t m in
  let doc' := prepare_update u ∪ doc in
  (forall u' d,
     truthy (of_opt (AnnouncementUpdate.expiration_date u')) = false ->
     truthy (of_opt (AnnouncementUpdate.start_date u')) = false ->
     validate_update u' d = inr tt) /\
  (forall u',
     prepare_update u' !! "expiration_date"
       = VStr <$> AnnouncementUpdate.expiration_date u' /\
     prepare_update u' !! "start_date"
       = VStr <$> AnnouncementUpdate.start_date u') /\
  validate_update u doc = inr tt /\
  exists s',
    update_announcement announcement_id u teacher_username s
      = (inr (Some doc'), s') /\
    find_one announcement_id (announcements_collection s') = Some doc' /\
    doc' !! "expiration_date" = Some (VStr "") /\
    strptime (get doc' "expiration_date") = inl ValueError.
Proof.
  intros K F Hne u doc'.
  split.
  { intros u' d H1 H2. unfold validate_update. by rewrite H1, H2. }
  split.
  { intros u'. unfold prepare_update, set_if_not_None.
    destruct u' as [[?|] [?|] [?|] [?|]]; by simpl. }
  split; [done|].
  assert (Hexp : doc' !! "expiration_date" = Some (VStr "")).
  { subst doc' u. unfold prepare_update, blank_expiration, set_if_not_None.
    simpl. erewrite lookup_union_Some_l; [done|]. apply lookup_insert_eq. }
  destruct (update_announcement_found _ u _ _ _ K F)
    as (pre & post & E & Hpre & _ & ->).
  fold doc'. simpl.
  assert (W : supplies_field u) by (do 3 right; done).
  apply supplies_field_truthy in W. rewrite W.
  rewrite bool_decide_eq_false_2; [|intros Hsame; congruence].
  eexists. split; [done|]. simpl.
  split; [|split; [done|]].
  - apply find_one_app; [done|]. subst doc'.
    rewrite lookup_union_r; [|apply prepare_update_no_id].
    by apply find_one_Some in F as [_ F].
  - unfold get. by rewrite Hexp.
Qed.

Lemma update_blank_expiration_witness :
  known_teacher "t1" store_dated /\
  find_one "a4" (announcements_collection store_dated) = Some dated /\
  dated !! "expiration_date" <> Some (VStr "") /\
  exists s',
    update_announcement "a4" (blank_expiration None None) "t1" store_dated =
      (inr (Some (prepare_update (blank_expiration None None) ∪ dated)), s') /\
    find_one "a4" (announcements_collection s')
      = Some (prepare_update (blank_expiration None None) ∪ dated) /\
    (prepare_update (blank_expiration None None) ∪ dated) !! "expiration_date"
      = Some (VStr "").
Proof.
  assert (K : known_teacher "t1" store_dated) by apply t1_known.
  assert (F : find_one "a4" (announcements_collection store_dated)
              = Some dated) by reflexivity.
  assert (N : dated !! "expiration_date" <> Some (VStr ""))
    by (by vm_compute).
  do 3 (split; [done|]).
  destruct (update_blank_expiration "a4" "t1" None None store_dated dated
              K F N) as (_ & _ & _ & s' & H & Hf & He & _).
  exists s'. split; [exact H|]. split; [exact Hf | exact He].
Defined.

(** ** Validation of date pairs *)

(** [strptime] with a date-only format returns midnight. *)
Lemma strptime_midnight v dt :
  strptime v = inr dt -> dt = mkdatetime (dt_date dt) 0 0 0 0.
Proof.
  unfold strptime. intros H.
  repeat (match type of H with
          | context [match ?x with _ => _ end] => destruct x
          | context [if ?x then _ else _] => destruct x
          end; try discriminate H); by injection H as <-.
Qed.

Lemma datetime_geb_parsed v w ds de :
  strptime v = inr ds -> strptime w = inr de ->
  datetime_geb ds de = false <-> date_lt (dt_date ds) (dt_date de).
Proof.
  intros Hs He. rewrite (strptime_midnight _ _ Hs), (strptime_midnight _ _ He).
  rewrite <- date_compare_Lt. unfold datetime_geb, datetime_compare. simpl.
  by destruct (date_compare (dt_date ds) (dt_date de)).
Qed.

Lemma check_pair_ok st e : pair_ok st e -> check_pair st e = inr tt.
Proof.
  intros (ds & de & (dts & Hs & <-) & (dte & He & <-) & Hlt).
  unfold check_pair. rewrite He, Hs. simpl.
  apply (datetime_geb_parsed _ _ _ _ Hs He) in Hlt. by rewrite Hlt.
Qed.

Lemma check_pair_rejected st e :
  ~ pair_ok st e ->
  exists err, check_pair st e = inl err /\
    (is_str e -> is_str st -> exists detail, err = HTTPException 400 detail).
Proof.
  intros Hno. unfold check_pair.
  destruct (strptime e) as [err|dte] eqn:He; simpl.
  { destruct (is_ValueError err) eqn:V.
    - exists BadFormat. split; [done|]. by eexists.
    - exists err. split; [done|]. intros (x & ->) _.
      apply strptime_str_raises in He. by subst err. }
  destruct (strptime st) as [err|dts] eqn:Hs; simpl.
  { destruct (is_ValueError err) eqn:V.
    - exists BadFormat. split; [done|]. by eexists.
    - exists err. split; [done|]. intros _ (x & ->).
      apply strptime_str_raises in Hs. by subst err. }
  destruct (datetime_geb dts dte) eqn:G; simpl.
  - exists BadOrder. split; [done|]. by eexists.
  - exfalso. apply Hno. exists (dt_date dts), (dt_date dte).
    split; [by exists dts|]. split; [by exists dte|].
    by apply (datetime_geb_parsed _ _ _ _ Hs He).
Qed.

(** C2, as the handler has it: validation runs when a supplied date tests
    true (is neither absent nor empty); each field of the effective pair
    is the supplied value when that tests true and the stored value
    otherwise; when both tests true and the pair does not parse with the
    start strictly before the expiration, the update fails and the store
    is unchanged, with [InvalidInput] (400) whenever both values are
    strings.  In every other case validation passes and the update does
    not fail with [InvalidInput]. *)
Theorem update_validates_resolved_pair
    (announcement_id teacher_username : string) (u : AnnouncementUpdate.t)
    (s : db) (doc : document) :
  known_teacher teacher_username s ->
  find_one announcement_id (announcements_collection s) = Some doc ->
  let e := py_or (of_opt (AnnouncementUpdate.expiration_date u))
             (get doc "expiration_date") in
  let st := py_or (of_opt (AnnouncementUpdate.start_date u))
              (get doc "start_date") in
  let required :=
    truthy (of_opt (AnnouncementUpdate.expiration_date u)) = true \/
    truthy (of_opt (AnnouncementUpdate.start_date u)) = true in
  (required -> truthy e = true -> truthy st = true -> ~ pair_ok st e ->
   exists err,
     update_announcement announcement_id u teacher_username s = (inl err, s) /\
     (is_str e -> is_str st -> exists detail, err = HTTPException 400 detail))
  /\
  (~ (required /\ truthy e = true /\ truthy st = true /\ ~ pair_ok st e) ->
   validate_update u doc = inr tt /\
   forall detail,
     fst (update_announcement announcement_id u teacher_username s)
       <> inl (HTTPException 400 detail)).
Proof.
  intros K F e st required.
  destruct (update_announcement_found _ u _ _ _ K F)
    as (pre & post & _ & _ & _ & ->).
  rewrite validate_update_eq. fold e st. simpl. split.
  - intros R Te Ts Hno.
    assert (truthy (of_opt (AnnouncementUpdate.expiration_date u))
            || truthy (of_opt (AnnouncementUpdate.start_date u)) = true) as ->.
    { apply orb_true_iff. exact R. }
    rewrite Te, Ts. simpl.
    destruct (check_pair_rejected _ _ Hno) as (err & -> & Herr). eauto.
  - intros Hn.
    assert (V : (if truthy (of_opt (AnnouncementUpdate.expiration_date u))
                    || truthy (of_opt (AnnouncementUpdate.start_date u))
                 then if truthy e && truthy st then check_pair st e
                      else inr tt
                 else inr tt) = inr tt).
    { destruct (truthy (of_opt (AnnouncementUpdate.expiration_date u))
                || truthy (of_opt (AnnouncementUpdate.start_date u))) eqn:R;
        [|done].
      apply orb_true_iff in R.
      destruct (truthy e) eqn:Te, (truthy st) eqn:Ts; simpl; try done.
      destruct (check_pair st e) as [err|[]] eqn:C; [|done].
      exfalso. apply Hn. do 3 (split; [done|]).
      intros P. by rewrite (check_pair_ok _ _ P) in C. }
    rewrite V. split; [done|]. intros detail.
    destruct (truthy_dict (prepare_update u)); [|done].
    by case_bool_decide.
Qed.

(** A start date supplied alone is checked against the stored expiration
    date. *)
Lemma update_validates_resolved_pair_witness :
  known_teacher "t1" store_dated /\
  find_one "a4" (announcements_collection store_dated) = Some dated /\
  exists err,
    update_announcement "a4"
      (AnnouncementUpdate.mk None None (Some "2025-04-01") None) "t1"
      store_dated = (inl err, store_dated) /\
    err = HTTPException 400 "Start date must be before expiration date".
Proof.
  assert (K : known_teacher "t1" store_dated) by apply t1_known.
  assert (F : find_one "a4" (announcements_collection store_dated)
              = Some dated) by reflexivity.
  do 2 (split; [done|]).
  destruct (update_validates_resolved_pair "a4" "t1"
              (AnnouncementUpdate.mk None None (Some "2025-04-01") None)
              store_dated dated K F) as [H _].
  destruct H as (err & E & _).
  - by right.
  - by vm_compute.
  - by vm_compute.
  - intros (ds & de & (dts & Hs & <-) & (dte & He & <-) & Hlt).
    vm_compute in Hs, He. injection Hs as <-. injection He as <-.
    apply date_ltb_lt in Hlt. by vm_compute in Hlt.
  - exists err. split; [done|].
    assert (E' : fst (update_announcement "a4"
                        (AnnouncementUpdate.mk None None (Some "2025-04-01")
                           None) "t1" store_dated) = inl BadOrder)
      by (by vm_compute).
    rewrite E in E'. by injection E' as ->.
Defined.

(** The resolution the specification words, supplied value if present,
    fails on an update that supplies the empty string as expiration date
    for a record with a start date: the pair it resolves does not parse,
    yet the update is accepted. *)
Lemma update_validation_counterexample :
  known_teacher "t1" store_dated /\
  find_one "a4" (announcements_collection store_dated) = Some dated /\
  ~ update_validation_as_stated "a4" (blank_expiration None None) "t1"
      store_dated dated.
Proof.
  split; [apply t1_known|]. split; [reflexivity|].
  intros H. destruct H as (detail & Hd).
  - by left.
  - done.
  - by vm_compute.
  - intros (ds & de & _ & (dte & He & _) & _). by vm_compute in He.
  - assert (E : exists r,
               fst (update_announcement "a4" (blank_expiration None None)
                      "t1" store_dated) = inr r)
      by (eexists; reflexivity).
    destruct E as (r & E). by rewrite Hd in E.
Qed.

(** ** Creation *)

(** What [create_announcement] does for a known teacher. *)
Lemma create_announcement_known utcnow oid c teacher_username s :
  known_teacher teacher_username s ->
  create_announcement utcnow oid c teacher_username s =
    match validate_create c with
    | inl e => (inl e, s)
    | inr _ =>
        let doc : document :=
          list_to_map
            [("title", VStr (AnnouncementCreate.title c));
             ("message", VStr (AnnouncementCreate.message c));
             ("start_date", of_opt (AnnouncementCreate.start_date c));
             ("expiration_date", VStr (AnnouncementCreate.expiration_date c));
             ("created_by", VStr teacher_username);
             ("created_at", VStr (isoformat utcnow))] in
        (inr (<["_id" := VStr oid]> (<["_id" := VObjectId oid]> doc)),
         mkdb (announcements_collection s
                 ++ [<["_id" := VObjectId oid]> doc])%list
              (teachers_collection s))
    end.
Proof.
  intros K. unfold create_announcement. authenticated K.
  destruct (validate_create c) as [e|[]]; [done|]. simpl.
  unfold insert_one.
  rewrite !lookup_insert_ne by done. rewrite lookup_empty. simpl.
  unfold get. by rewrite lookup_insert_eq.
Qed.

Lemma strptime_empty : strptime (VStr "") = inl ValueError.
Proof. reflexivity. Qed.

Lemma truthy_str x : truthy (VStr x) = true <-> x <> "".
Proof.
  simpl. destruct (String.eqb_spec x ""); split; (done || congruence).
Qed.

(** C3, as the handler has it: for a known teacher, create fails with
    [InvalidInput] (400) and inserts nothing when the start date and the
    expiration date both parse and the start is not strictly before the
    expiration, and when the expiration date, or a start date that is not
    the empty string, fails to parse.  An empty start date is taken as no
    start date: it is not validated, and it is stored. *)
Theorem create_rejects_bad_dates (utcnow : datetime) (oid : string)
    (c : AnnouncementCreate.t) (teacher_username : string) (s : db) :
  known_teacher teacher_username s ->
  (forall x ds de,
     AnnouncementCreate.start_date c = Some x ->
     parses_to (VStr x) ds ->
     parses_to (VStr (AnnouncementCreate.expiration_date c)) de ->
     ~ date_lt ds de ->
     create_announcement utcnow oid c teacher_username s =
       (inl (HTTPException 400 "Start date must be before expiration date"),
        s)) /\
  (unparsable (VStr (AnnouncementCreate.expiration_date c)) \/
   (exists x, AnnouncementCreate.start_date c = Some x /\ x <> "" /\
              unparsable (VStr x)) ->
   create_announcement utcnow oid c teacher_username s =
     (inl (HTTPException 400
             "Invalid date format. Use ISO format (YYYY-MM-DD)"), s)) /\
  (AnnouncementCreate.start_date c = Some "" ->
   ~ unparsable (VStr (AnnouncementCreate.expiration_date c)) ->
   exists d,
     fst (create_announcement utcnow oid c teacher_username s) = inr d /\
     d !! "start_date" = Some (VStr "")).
Proof.
  intros K. rewrite (create_announcement_known _ _ _ _ _ K).
  unfold validate_create. split; [|split].
  - intros x ds de Hx (dts & Hs & <-) (dte & He & <-) Hlt.
    assert (x <> "") as Hne.
    { intros ->. by rewrite strptime_empty in Hs. }
    apply truthy_str in Hne.
    rewrite Hx, He. cbn [of_opt rbind]. rewrite Hne, Hs. simpl.
    destruct (datetime_geb dts dte) eqn:G; [done|].
    exfalso. apply Hlt. by apply (datetime_geb_parsed _ _ _ _ Hs He).
  - intros [Hu | (x & Hx & Hne & Hu)].
    + apply unparsable_raises in Hu as (e & He). rewrite He. simpl.
      apply strptime_str_raises in He as ->. done.
    + destruct (strptime (VStr (AnnouncementCreate.expiration_date c)))
        as [e|dte] eqn:He; simpl.
      * apply strptime_str_raises in He as ->. done.
      * apply truthy_str in Hne. rewrite Hx. cbn [of_opt]. rewrite Hne.
        apply unparsable_raises in Hu as (e & Hs). rewrite Hs. simpl.
        apply strptime_str_raises in Hs as ->. done.
  - intros Hx Hp. rewrite Hx. cbn [of_opt truthy String.eqb negb].
    destruct (strptime (VStr (AnnouncementCreate.expiration_date c)))
      as [e|dte] eqn:He.
    + exfalso. apply Hp. apply unparsable_raises. eauto.
    + cbn [rbind try_except fst]. eexists. split; [reflexivity|].
      simpl. by simplify_map_eq.
Qed.

Lemma create_rejects_bad_dates_witness :
  known_teacher "t1" store_dated /\
  create_announcement clock_feb1 "65f0c1"
    (AnnouncementCreate.mk "Exam" "Midterm" (Some "2025-01-10") "2025-01-01")
    "t1" store_dated =
    (inl (HTTPException 400 "Start date must be before expiration date"),
     store_dated).
Proof.
  assert (K : known_teacher "t1" store_dated) by apply t1_known.
  split; [done|].
  destruct (create_rejects_bad_dates clock_feb1 "65f0c1"
              (AnnouncementCreate.mk "Exam" "Midterm" (Some "2025-01-10")
                 "2025-01-01") "t1" store_dated K) as (H & _ & _).
  apply (H "2025-01-10" (mkdate 2025 1 10) (mkdate 2025 1 1)).
  - done.
  - eexists. split; by vm_compute.
  - eexists. split; by vm_compute.
  - intros Hlt. apply date_ltb_lt in Hlt. by vm_compute in Hlt.
Defined.

(** "If either supplied date fails to parse" fails on the empty string as
    start date: it does not parse, and the announcement is created. *)
Lemma create_validation_counterexample :
  known_teacher "t1" store_dated /\
  ~ create_validation_as_stated clock_feb1 "65f0c1"
      (AnnouncementCreate.mk "Exam" "Midterm" (Some "") "2025-01-10")
      "t1" store_dated.
Proof.
  split; [apply t1_known|].
  intros [_ H]. destruct H as (detail & Hd).
  - left. exists "". split; [done|]. intros dt. by vm_compute.
  - assert (E : exists r,
               fst (create_announcement clock_feb1 "65f0c1"
                      (AnnouncementCreate.mk "Exam" "Midterm" (Some "")
                         "2025-01-10") "t1" store_dated) = inr r)
      by (eexists; reflexivity).
    destruct E as (r & E). by rewrite Hd in E.
Qed.

(** C10: the record a successful create returns has exactly the fields
    title, message, start_date, expiration_date, created_by, created_at
    and the id; [created_by] is the requester, [created_at] the clock
    reading in ISO format, and [start_date] is there also when the caller
    gave none, as [None].  The record stored is the same with the id as the
    store generated it, appended to the collection. *)
Theorem created_record (utcnow : datetime) (oid : string)
    (c : AnnouncementCreate.t) (teacher_username : string) (s s' : db)
    (d : document) :
  create_announcement utcnow oid c teacher_username s = (inr d, s') ->
  dom d = ({[ "title"; "message"; "start_date"; "expiration_date";
              "created_by"; "created_at"; "_id" ]} : gset string) /\
  d !! "title" = Some (VStr (AnnouncementCreate.title c)) /\
  d !! "message" = Some (VStr (AnnouncementCreate.message c)) /\
  d !! "start_date" = Some (of_opt (AnnouncementCreate.start_date c)) /\
  (AnnouncementCreate.start_date c = None ->
   d !! "start_date" = Some VNone) /\
  d !! "expiration_date"
    = Some (VStr (AnnouncementCreate.expiration_date c)) /\
  d !! "created_by" = Some (VStr teacher_username) /\
  d !! "created_at" = Some (VStr (isoformat utcnow)) /\
  d !! "_id" = Some (VStr oid) /\
  announcements_collection s' =
    (announcements_collection s ++ [<["_id" := VObjectId oid]> d])%list /\
  teachers_collection s' = teachers_collection s.
Proof.
  intros H.
  assert (K : known_teacher teacher_username s).
  { apply known_teacher_found.
    destruct (find_one teacher_username (teachers_collection s)) as [t|] eqn:E;
      [eauto|].
    exfalso. revert H. unfold create_announcement. run. by rewrite E. }
  rewrite (create_announcement_known _ _ _ _ _ K) in H.
  destruct (validate_create c) as [e|[]]; [done|].
  simpl in H. injection H as <- <-. simpl.
  split. { rewrite !dom_insert_L, dom_empty_L. set_solver. }
  rewrite insert_insert_eq.
  repeat (split; [by simplify_map_eq|]).
  split. { intros E. rewrite E. by simplify_map_eq. }
  do 5 (split; [by simplify_map_eq|]).
  reflexivity.
Qed.

Lemma created_record_witness :
  exists d s',
    create_announcement clock_feb1 "65f0c1"
      (AnnouncementCreate.mk "Exam" "Midterm" None "2025-03-10")
      "t1" store_dated = (inr d, s') /\
    d !! "start_date" = Some VNone /\
    d !! "created_by" = Some (VStr "t1") /\
    d !! "created_at" = Some (VStr "2025-02-01T09:30:00+00:00").
Proof.
  pose proof (create_announcement_known clock_feb1 "65f0c1"
                (AnnouncementCreate.mk "Exam" "Midterm" None "2025-03-10")
                "t1" store_dated (t1_known _)) as E.
  change (validate_create _) with (@inr exn unit tt) in E.
  cbv beta iota zeta in E.
  eexists _, _. split; [exact E|].
  destruct (created_record _ _ _ _ _ _ _ E)
    as (_ & _ & _ & _ & Hs & _ & Hb & Ha & _).
  split; [by apply Hs|]. split; [exact Hb | exact Ha].
Defined.

(** C4 at a requester that no teacher record names. *)
Lemma unknown_teacher_rejected_witness :
  (forall d, d ∈ teachers_collection store_dated ->
             d !! "_id" <> Some (VStr "mallory")) /\
  delete_announcement "a4" "mallory" store_dated
    = (inl (HTTPException 401 "Authentication required"), store_dated).
Proof.
  assert (H : forall d, d ∈ teachers_collection store_dated ->
                        d !! "_id" <> Some (VStr "mallory")).
  { intros d Hd. apply list_elem_of_In in Hd.
    destruct Hd as [<- | []]. by vm_compute. }
  split; [exact H|].
  apply (unknown_teacher_rejected "mallory" store_dated clock_feb1 "65f0c1"
           "a4" (AnnouncementCreate.mk "Exam" "Midterm" None "2025-03-10")
           no_fields H).
Defined.

(** * Further properties of the handlers *)

(** ** Deletion *)

Lemma delete_one_none id c :
  find_one id c = None -> delete_one id c = (c, {| deleted_count := 0 |}).
Proof.
  unfold find_one. induction c as [|x c IH]; simpl; [done|].
  destruct (matches_id id x); [done|]. intros H. by rewrite (IH H).
Qed.

Lemma delete_one_app id pre d post :
  find_one id pre = None -> d !! "_id" = Some (VStr id) ->
  delete_one id (pre ++ d :: post)%list
    = ((pre ++ post)%list, {| deleted_count := 1 |}).
Proof.
  unfold find_one. induction pre as [|x pre IH]; simpl; intros Hpre Hd.
  - apply matches_id_true in Hd. by rewrite Hd.
  - destruct (matches_id id x); [done|]. by rewrite IH.
Qed.

Lemma delete_announcement_missing id teacher_username s :
  known_teacher teacher_username s ->
  find_one id (announcements_collection s) = None ->
  delete_announcement id teacher_username s = (inl NotFound, s).
Proof.
  intros K N. unfold delete_announcement. authenticated K.
  rewrite (delete_one_none _ _ N). simpl. by destruct s.
Qed.

Lemma update_announcement_missing id u teacher_username s :
  known_teacher teacher_username s ->
  find_one id (announcements_collection s) = None ->
  update_announcement id u teacher_username s = (inl NotFound, s).
Proof.
  intros K N. unfold update_announcement. authenticated K. by rewrite N.
Qed.

(** X1: a delete by a known teacher of an id no stored record has fails
    with [NotFound] (404) and leaves the store as it was. *)
Theorem delete_unknown_id (announcement_id teacher_username : string)
    (s : db) :
  known_teacher teacher_username s ->
  (forall d, d ∈ announcements_collection s ->
             d !! "_id" <> Some (VStr announcement_id)) ->
  delete_announcement announcement_id teacher_username s
    = (inl (HTTPException 404 "Announcement not found"), s).
Proof.
  intros K N. apply find_one_None in N.
  by apply delete_announcement_missing.
Qed.

Lemma delete_unknown_id_witness :
  known_teacher "t1" store_dated /\
  delete_announcement "a9" "t1" store_dated
    = (inl (HTTPException 404 "Announcement not found"), store_dated).
Proof.
  split; [apply t1_known|].
  apply delete_unknown_id; [apply t1_known|].
  intros d Hd. apply list_elem_of_In in Hd.
  destruct Hd as [<- | []]. by vm_compute.
Defined.

(** X2: a delete by a known teacher of an id that is stored succeeds with
    the acknowledgment message and removes the first record with that id
    and nothing else: the records before and after it stay, in order, and
    the teachers are untouched. *)
Theorem delete_removes_first_match (announcement_id teacher_username : string)
    (s : db) (doc : document) :
  known_teacher teacher_username s ->
  find_one announcement_id (announcements_collection s) = Some doc ->
  exists pre post,
    announcements_collection s = (pre ++ doc :: post)%list /\
    find_one announcement_id pre = None /\
    delete_announcement announcement_id teacher_username s =
      (inr {[ "message" := VStr "Announcement deleted successfully" ]},
       mkdb (pre ++ post)%list (teachers_collection s)).
Proof.
  intros K F. destruct (find_one_split _ _ _ F) as (pre & post & E & Hpre).
  pose proof (find_one_Some _ _ _ F) as [_ Hid].
  exists pre, post. split; [done|]. split; [done|].
  unfold delete_announcement. authenticated K.
  rewrite E, (delete_one_app _ _ _ _ Hpre Hid). done.
Qed.

Lemma delete_removes_first_match_witness :
  known_teacher "t1" store_dated /\
  find_one "a4" (announcements_collection store_dated) = Some dated /\
  delete_announcement "a4" "t1" store_dated =
    (inr {[ "message" := VStr "Announcement deleted successfully" ]},
     mkdb [] [teacher_t1]).
Proof.
  assert (K : known_teacher "t1" store_dated) by apply t1_known.
  assert (F : find_one "a4" (announcements_collection store_dated)
              = Some dated) by reflexivity.
  do 2 (split; [done|]).
  destruct (delete_removes_first_match "a4" "t1" store_dated dated K F)
    as (pre & post & E & _ & ->).
  destruct pre as [|x pre]; simpl in E.
  - by injection E as <-.
  - injection E as _ E. by destruct pre.
Defined.

(** ** More on updates *)

(** X3: an update by a known teacher of an id no stored record has fails
    with [NotFound] (404) whatever fields it supplies, valid or not: the
    lookup comes before the validation.  The store is as it was. *)
Theorem update_unknown_id (announcement_id teacher_username : string)
    (u : AnnouncementUpdate.t) (s : db) :
  known_teacher teacher_username s ->
  (forall d, d ∈ announcements_collection s ->
             d !! "_id" <> Some (VStr announcement_id)) ->
  update_announcement announcement_id u teacher_username s
    = (inl (HTTPException 404 "Announcement not found"), s).
Proof.
  intros K N. apply find_one_None in N.
  by apply update_announcement_missing.
Qed.

Lemma update_unknown_id_witness :
  known_teacher "t1" store_dated /\
  update_announcement "a9"
    (AnnouncementUpdate.mk None None (Some "not a date") (Some "2025-01-01"))
    "t1" store_dated
    = (inl (HTTPException 404 "Announcement not found"), store_dated).
Proof.
  split; [apply t1_known|].
  apply update_unknown_id; [apply t1_known|].
  intros d Hd. apply list_elem_of_In in Hd.
  destruct Hd as [<- | []]. by vm_compute.
Defined.

Lemma prepare_update_lookup u k :
  prepare_update u !! k =
    if decide (k = "expiration_date")
    then VStr <$> AnnouncementUpdate.expiration_date u
    else if decide (k = "start_date")
    then VStr <$> AnnouncementUpdate.start_date u
    else if decide (k = "message")
    then VStr <$> AnnouncementUpdate.message u
    else if decide (k = "title")
    then VStr <$> AnnouncementUpdate.title u
    else None.
Proof.
  unfold prepare_update, set_if_not_None.
  destruct u as [t m st e]; simpl.
  repeat case_decide; subst;
    destruct t, m, st, e; simpl; by simplify_map_eq.
Qed.

Lemma merged_lookup u (doc : document) k supplied :
  prepare_update u !! k = VStr <$> supplied ->
  (prepare_update u ∪ doc) !! k = merged supplied (doc !! k).
Proof.
  intros H. rewrite lookup_union, H. unfold merged.
  destruct supplied; simpl; by destruct (doc !! k).
Qed.

(** X4: an update is a partial merge.  When it succeeds, the record found
    under the id gets each supplied field and keeps every other field,
    [_id], [created_by] and [created_at] among them; the record is
    returned; no other record changes, nor the order of the records, nor
    the teachers. *)
Theorem update_partial_merge (announcement_id teacher_username : string)
    (u : AnnouncementUpdate.t) (s s' : db) (doc : document)
    (r : option document) :
  known_teacher teacher_username s ->
  find_one announcement_id (announcements_collection s) = Some doc ->
  update_announcement announcement_id u teacher_username s = (inr r, s') ->
  exists pre post doc',
    r = Some doc' /\
    announcements_collection s = (pre ++ doc :: post)%list /\
    announcements_collection s' = (pre ++ doc' :: post)%list /\
    teachers_collection s' = teachers_collection s /\
    doc' !! "title" = merged (AnnouncementUpdate.title u) (doc !! "title") /\
    doc' !! "message"
      = merged (AnnouncementUpdate.message u) (doc !! "message") /\
    doc' !! "start_date"
      = merged (AnnouncementUpdate.start_date u) (doc !! "start_date") /\
    doc' !! "expiration_date"
      = merged (AnnouncementUpdate.expiration_date u)
          (doc !! "expiration_date") /\
    forall k, ~ updatable k -> doc' !! k = doc !! k.
Proof.
  intros K F H.
  destruct (update_announcement_found _ u _ _ _ K F)
    as (pre & post & E & Hpre & _ & R).
  rewrite R in H. clear R.
  assert (M : forall doc' : document, doc' = prepare_update u ∪ doc ->
    doc' !! "title" = merged (AnnouncementUpdate.title u) (doc !! "title") /\
    doc' !! "message"
      = merged (AnnouncementUpdate.message u) (doc !! "message") /\
    doc' !! "start_date"
      = merged (AnnouncementUpdate.start_date u) (doc !! "start_date") /\
    doc' !! "expiration_date"
      = merged (AnnouncementUpdate.expiration_date u)
          (doc !! "expiration_date") /\
    forall k, ~ updatable k -> doc' !! k = doc !! k).
  { intros doc' ->.
    repeat (split; [apply merged_lookup; by rewrite prepare_update_lookup|]).
    intros k Hk. rewrite lookup_union_r; [done|].
    rewrite prepare_update_lookup. unfold updatable in Hk.
    repeat case_decide; try done; exfalso; apply Hk; tauto. }
  destruct (validate_update u doc) as [e|[]]; [done|].
  destruct (truthy_dict (prepare_update u)) eqn:T.
  - case_bool_decide; [done|]. injection H as <- <-.
    exists pre, post, (prepare_update u ∪ doc).
    do 3 (split; [done|]). split; [done|]. by apply M.
  - injection H as <- <-. exists pre, post, doc.
    do 3 (split; [done|]). split; [done|]. apply M.
    unfold truthy_dict in T. apply negb_false_iff in T.
    apply bool_decide_eq_true in T. rewrite T.
    symmetry. apply (left_id_L ∅ (∪)).
Qed.

Lemma update_partial_merge_witness :
  known_teacher "t1" store_dated /\
  find_one "a4" (announcements_collection store_dated) = Some dated /\
  exists r s',
    update_announcement "a4"
      (AnnouncementUpdate.mk None (Some "Final") None (Some "2025-04-01"))
      "t1" store_dated = (inr r, s') /\
    exists doc',
      r = Some doc' /\
      doc' !! "message" = Some (VStr "Final") /\
      doc' !! "start_date" = Some (VStr "2025-01-01") /\
      doc' !! "created_by" = Some (VStr "t1").
Proof.
  assert (K : known_teacher "t1" store_dated) by apply t1_known.
  assert (F : find_one "a4" (announcements_collection store_dated)
              = Some dated) by reflexivity.
  do 2 (split; [done|]).
  destruct (update_announcement_found "a4"
              (AnnouncementUpdate.mk None (Some "Final") None
                 (Some "2025-04-01")) "t1" store_dated dated K F)
    as (pre & post & _ & _ & _ & R).
  change (validate_update _ dated) with (@inr exn unit tt) in R.
  change (truthy_dict _) with true in R.
  rewrite bool_decide_eq_false_2 in R.
  2:{ intros E. apply (f_equal (fun m : document => m !! "message")) in E.
      by vm_compute in E. }
  eexists _, _. split; [exact R|].
  destruct (update_partial_merge _ _ _ _ _ _ _ K F R)
    as (pre' & post' & doc' & -> & _ & _ & _ & _ & Hm & Hs & _ & Ho).
  exists doc'. split; [done|]. split; [exact Hm|]. split; [exact Hs|].
  rewrite Ho; [done|]. unfold updatable. intros [?|[?|[?|?]]]; done.
Defined.

(** After an update, each date of the effective pair is the one the first
    validation saw, or it is empty. *)
Lemma resolved_again u (doc : document) k supplied :
  prepare_update u !! k = VStr <$> supplied ->
  py_or (of_opt supplied) (get (prepare_update u ∪ doc) k)
    = py_or (of_opt supplied) (get doc k) \/
  truthy (py_or (of_opt supplied) (get (prepare_update u ∪ doc) k)) = false.
Proof.
  intros H. unfold get. rewrite (merged_lookup _ _ _ _ H).
  destruct supplied as [v|]; simpl; [|by left].
  unfold py_or. destruct (truthy (VStr v)) eqn:T; [by left | by right].
Qed.

Lemma known_teacher_same_teachers u s s' :
  teachers_collection s' = teachers_collection s ->
  known_teacher u s -> known_teacher u s'.
Proof. unfold known_teacher. by intros ->. Qed.

(** X5: an update is not idempotent.  When an update by a known teacher
    that supplies a field has succeeded, the same update sent again finds
    nothing left to change and fails with [InternalError] (500). *)
Theorem update_repeat_fails (announcement_id teacher_username : string)
    (u : AnnouncementUpdate.t) (s s' : db) (doc : document)
    (r : option document) :
  known_teacher teacher_username s ->
  find_one announcement_id (announcements_collection s) = Some doc ->
  supplies_field u ->
  update_announcement announcement_id u teacher_username s = (inr r, s') ->
  update_announcement announcement_id u teacher_username s' =
    (inl (HTTPException 500 "Failed to update announcement"), s').
Proof.
  intros K F W H.
  destruct (update_announcement_found _ u _ _ _ K F)
    as (pre & post & E & Hpre & _ & R).
  rewrite R in H. clear R.
  destruct (validate_update u doc) as [e|[]] eqn:V; [done|].
  apply supplies_field_truthy in W. rewrite W in H.
  case_bool_decide as Hch; [done|]. injection H as <- <-.
  set (doc' := prepare_update u ∪ doc).
  assert (K' : known_teacher teacher_username
                 (mkdb (pre ++ doc' :: post)%list (teachers_collection s)))
    by (by apply (known_teacher_same_teachers _ s)).
  assert (F' : find_one announcement_id (pre ++ doc' :: post)%list
               = Some doc').
  { apply find_one_app; [done|]. subst doc'.
    rewrite lookup_union_r; [|apply prepare_update_no_id].
    by apply find_one_Some in F as [_ F]. }
  destruct (update_announcement_found _ u _ _ _ K' F')
    as (pre' & post' & _ & _ & _ & ->).
  assert (V' : validate_update u doc' = inr tt).
  { rewrite validate_update_eq in V |- *.
    destruct (truthy (of_opt (AnnouncementUpdate.expiration_date u))
              || truthy (of_opt (AnnouncementUpdate.start_date u)));
      [|done].
    cbv zeta in V |- *.
    destruct (resolved_again u doc "expiration_date"
                (AnnouncementUpdate.expiration_date u))
      as [He | He]; [by rewrite prepare_update_lookup | |];
      fold doc' in He.
    2:{ by rewrite He. }
    destruct (resolved_again u doc "start_date"
                (AnnouncementUpdate.start_date u))
      as [Hs | Hs]; [by rewrite prepare_update_lookup | |];
      fold doc' in Hs.
    2:{ rewrite Hs. by rewrite andb_false_r. }
    by rewrite He, Hs. }
  rewrite V', W.
  rewrite bool_decide_eq_true_2; [done|]. subst doc'.
  by rewrite (assoc_L (∪)), (idemp_L (∪)).
Qed.

Lemma update_repeat_fails_witness :
  known_teacher "t1" store_dated /\
  find_one "a4" (announcements_collection store_dated) = Some dated /\
  supplies_field (title_only "Quiz") /\
  exists r s',
    update_announcement "a4" (title_only "Quiz") "t1" store_dated
      = (inr r, s') /\
    update_announcement "a4" (title_only "Quiz") "t1" s' =
      (inl (HTTPException 500 "Failed to update announcement"), s').
Proof.
  assert (K : known_teacher "t1" store_dated) by apply t1_known.
  assert (F : find_one "a4" (announcements_collection store_dated)
              = Some dated) by reflexivity.
  assert (W : supplies_field (title_only "Quiz")) by (by left).
  do 3 (split; [done|]).
  destruct (update_announcement_found "a4" (title_only "Quiz") "t1"
              store_dated dated K F) as (pre & post & _ & _ & _ & R).
  change (validate_update _ dated) with (@inr exn unit tt) in R.
  change (truthy_dict _) with true in R.
  rewrite bool_decide_eq_false_2 in R.
  2:{ intros E. apply (f_equal (fun m : document => m !! "title")) in E.
      by vm_compute in E. }
  eexists _, _. split; [exact R|].
  exact (update_repeat_fails _ _ _ _ _ _ _ K F W R).
Defined.

(** ** Failure is atomic *)

Lemma known_teacher_dec u s : known_teacher u s \/ ~ known_teacher u s.
Proof.
  destruct (find_one u (teachers_collection s)) as [d|] eqn:E.
  - left. apply known_teacher_found. eauto.
  - right. by apply unknown_teacher_not_found.
Qed.

(** X13: whatever exception a handler raises, for whatever reason, both
    collections are then exactly as they were before the request. *)
Theorem failed_request_changes_nothing (utcnow : datetime)
    (oid announcement_id teacher_username : string)
    (c : AnnouncementCreate.t) (u : AnnouncementUpdate.t) (s s' : db)
    (e : exn) :
  (get_announcements utcnow s = (inl e, s') -> s' = s) /\
  (get_all_announcements teacher_username s = (inl e, s') -> s' = s) /\
  (create_announcement utcnow oid c teacher_username s = (inl e, s') ->
   s' = s) /\
  (update_announcement announcement_id u teacher_username s = (inl e, s') ->
   s' = s) /\
  (delete_announcement announcement_id teacher_username s = (inl e, s') ->
   s' = s).
Proof.
  split. { rewrite get_announcements_eq. by intros [= _ <-]. }
  destruct (known_teacher_dec teacher_username s) as [K|N].
  2:{ apply unknown_teacher_not_found in N.
      unfold get_all_announcements, create_announcement,
        update_announcement, delete_announcement.
      run. rewrite N. simpl. repeat split; by intros [= _ <-]. }
  split; [|split; [|split]].
  - rewrite (get_all_announcements_eq _ _ K). by intros [= _ <-].
  - rewrite (create_announcement_known _ _ _ _ _ K).
    destruct (validate_create c) as [e'|[]]; [by intros [= _ <-] | done].
  - destruct (find_one announcement_id (announcements_collection s))
      as [doc|] eqn:F.
    + destruct (update_announcement_found _ u _ _ _ K F)
        as (pre & post & _ & _ & _ & ->).
      destruct (validate_update u doc) as [e'|[]]; [by intros [= _ <-]|].
      destruct (truthy_dict (prepare_update u)); [|done].
      case_bool_decide; [by intros [= _ <-] | done].
    + rewrite (update_announcement_missing _ _ _ _ K F). by intros [= _ <-].
  - destruct (find_one announcement_id (announcements_collection s))
      as [doc|] eqn:F.
    + unfold delete_announcement. authenticated K.
      destruct (find_one_split _ _ _ F) as (pre & post & E & Hpre).
      pose proof (find_one_Some _ _ _ F) as [_ Hid].
      rewrite E, (delete_one_app _ _ _ _ Hpre Hid). done.
    + rewrite (delete_announcement_missing _ _ _ K F). by intros [= _ <-].
Qed.

(** ** More on creation *)

Lemma validate_create_cases c :
  let e := VStr (AnnouncementCreate.expiration_date c) in
  let st := of_opt (AnnouncementCreate.start_date c) in
  (exists err, strptime e = inl err /\ validate_create c = inl BadFormat) \/
  (exists dte, strptime e = inr dte /\
     ((truthy st = false /\ validate_create c = inr tt) \/
      (truthy st = true /\
       ((exists err, strptime st = inl err /\
                     validate_create c = inl BadFormat) \/
        (exists dts, strptime st = inr dts /\
           validate_create c =
             if datetime_geb dts dte then inl BadOrder else inr tt))))).
Proof.
  intros e st. unfold validate_create. fold e st.
  destruct (strptime e) as [err|dte] eqn:He.
  { left. exists err. split; [done|]. simpl.
    by rewrite (strptime_str_raises _ _ He). }
  right. exists dte. split; [done|]. cbn [rbind].
  destruct (truthy st) eqn:T; [right | by left]. split; [done|].
  destruct (strptime st) as [err|dts] eqn:Hs.
  - left. exists err. split; [done|]. simpl.
    subst st. destruct (AnnouncementCreate.start_date c); [|done].
    by rewrite (strptime_str_raises _ _ Hs).
  - right. exists dts. split; [done|]. simpl.
    by destruct (datetime_geb dts dte).
Qed.

Lemma validate_create_accepts c :
  validate_create c = inr tt <-> acceptable_dates c.
Proof.
  unfold acceptable_dates, pair_ok, parses_to.
  destruct (validate_create_cases c)
    as [(err & He & V) | (dte & He & [(T & V) | (T & [(err & Hs & V) |
          (dts & Hs & V)])])]; rewrite V; clear V.
  - split; [done|]. intros [(de & dt & E & _) _]. by rewrite He in E.
  - split; [|done]. intros _. split; [by exists (dt_date dte), dte|].
    destruct (AnnouncementCreate.start_date c) as [x|]; [|by left].
    right. left. simpl in T. apply negb_false_iff in T.
    by apply String.eqb_eq in T as ->.
  - split; [done|]. intros [_ [N | [N | (x & N & P)]]];
      rewrite N in T, Hs; cbn [of_opt] in T, Hs; try done.
    destruct P as (ds & de & (dt & E & _) & _). by rewrite Hs in E.
  - destruct (datetime_geb dts dte) eqn:G.
    + split; [done|]. intros [_ [N | [N | (x & N & P)]]];
        rewrite N in T, Hs; cbn [of_opt] in T, Hs; try done.
      destruct P as (ds & de & (dt & E & <-) & (dt' & E' & <-) & Hlt).
      rewrite Hs in E. rewrite He in E'. injection E as <-.
      injection E' as <-.
      apply (datetime_geb_parsed _ _ _ _ Hs He) in Hlt. congruence.
    + split; [|done]. intros _. split; [by exists (dt_date dte), dte|].
      destruct (AnnouncementCreate.start_date c) as [x|] eqn:N; [|done].
      do 2 right. exists x. split; [done|].
      exists (dt_date dts), (dt_date dte).
      split; [by exists dts|]. split; [by exists dte|].
      by apply (datetime_geb_parsed _ _ _ _ Hs He).
Qed.

(** X6: the acceptance rule of create.  For a known teacher, create
    succeeds exactly when the expiration date parses and the start date is
    absent, empty, or parses to a day strictly before it; it then appends
    one record to the collection and changes nothing else.  Otherwise it
    fails with [InvalidInput] (400).  The clock plays no part: a request
    whose dates are all in the past is accepted. *)
Theorem create_acceptance (utcnow : datetime) (oid : string)
    (c : AnnouncementCreate.t) (teacher_username : string) (s : db) :
  known_teacher teacher_username s ->
  (acceptable_dates c ->
   exists d stored,
     create_announcement utcnow oid c teacher_username s =
       (inr d, mkdb (announcements_collection s ++ [stored])%list
                    (teachers_collection s))) /\
  (~ acceptable_dates c ->
   exists detail,
     create_announcement utcnow oid c teacher_username s =
       (inl (HTTPException 400 detail), s)).
Proof.
  intros K. rewrite (create_announcement_known _ _ _ _ _ K).
  rewrite <- validate_create_accepts. split.
  - intros ->. by eexists _, _.
  - intros N.
    destruct (validate_create_cases c)
      as [(err & _ & V) | (dte & _ & [(_ & V) | (_ & [(err & _ & V) |
            (dts & _ & V)])])]; rewrite V in N |- *; try done;
      try by eexists.
    destruct (datetime_geb dts dte); [by eexists | done].
Qed.

Lemma create_acceptance_witness :
  known_teacher "t1" store_dated /\
  acceptable_dates
    (AnnouncementCreate.mk "Old" "Long gone" (Some "1999-1-5") "1999-12-31") /\
  exists d stored,
    create_announcement clock_feb1 "65f0c1"
      (AnnouncementCreate.mk "Old" "Long gone" (Some "1999-1-5") "1999-12-31")
      "t1" store_dated =
      (inr d, mkdb [dated; stored] [teacher_t1]).
Proof.
  assert (K : known_teacher "t1" store_dated) by apply t1_known.
  assert (A : acceptable_dates
                (AnnouncementCreate.mk "Old" "Long gone" (Some "1999-1-5")
                   "1999-12-31")).
  { apply validate_create_accepts. reflexivity. }
  do 2 (split; [done|]).
  exact (proj1 (create_acceptance clock_feb1 "65f0c1" _ "t1" store_dated K)
           A).
Defined.

Lemma create_stored utcnow oid c teacher_username s d s' :
  create_announcement utcnow oid c teacher_username s = (inr d, s') ->
  known_teacher teacher_username s /\
  validate_create c = inr tt /\
  d !! "_id" = Some (VStr oid) /\
  exists stored : document,
    announcements_collection s' =
      (announcements_collection s ++ [stored])%list /\
    teachers_collection s' = teachers_collection s /\
    stored !! "_id" = Some (VObjectId oid) /\
    get stored "expiration_date"
      = VStr (AnnouncementCreate.expiration_date c) /\
    get stored "start_date" = of_opt (AnnouncementCreate.start_date c).
Proof.
  intros H.
  assert (K : known_teacher teacher_username s).
  { destruct (known_teacher_dec teacher_username s) as [K|N]; [done|].
    apply unknown_teacher_not_found in N.
    exfalso. revert H. unfold create_announcement. run. by rewrite N. }
  split; [done|].
  rewrite (create_announcement_known _ _ _ _ _ K) in H.
  destruct (validate_create c) as [e|[]]; [done|]. split; [done|].
  cbv zeta in H. injection H as <- <-.
  split; [apply lookup_insert_eq|].
  eexists. split; [reflexivity|]. split; [done|].
  split; [apply lookup_insert_eq|]. unfold get. simpl.
  split; by simplify_map_eq.
Qed.

(** X7: the id create returns does not find the record again.  The store
    holds the record under the [ObjectId] the driver generated, while the
    response carries its string form, and update and delete look up the
    string: unless some stored record has that very string as its id, both
    answer [NotFound] (404) for the record just created. *)
Theorem created_id_not_found (utcnow : datetime) (oid : string)
    (c : AnnouncementCreate.t) (teacher_username : string) (s s' : db)
    (d : document) (u : AnnouncementUpdate.t) :
  create_announcement utcnow oid c teacher_username s = (inr d, s') ->
  (forall x, x ∈ announcements_collection s ->
             x !! "_id" <> Some (VStr oid)) ->
  d !! "_id" = Some (VStr oid) /\
  update_announcement oid u teacher_username s' =
    (inl (HTTPException 404 "Announcement not found"), s') /\
  delete_announcement oid teacher_username s' =
    (inl (HTTPException 404 "Announcement not found"), s').
Proof.
  intros H N.
  destruct (create_stored _ _ _ _ _ _ _ H)
    as (K & _ & Hid & stored & E & Et & Hs & _).
  split; [done|].
  assert (K' : known_teacher teacher_username s')
    by (by apply (known_teacher_same_teachers _ s)).
  assert (F : find_one oid (announcements_collection s') = None).
  { apply find_one_None. rewrite E. intros x Hx.
    apply elem_of_app in Hx as [Hx | Hx]; [by apply N|].
    apply list_elem_of_singleton in Hx as ->. by rewrite Hs. }
  split.
  - by apply update_announcement_missing.
  - by apply delete_announcement_missing.
Qed.

Lemma created_id_not_found_witness :
  exists d s',
    create_announcement clock_feb1 "65f0c1"
      (AnnouncementCreate.mk "Exam" "Midterm" None "2025-03-10")
      "t1" store_dated = (inr d, s') /\
    d !! "_id" = Some (VStr "65f0c1") /\
    delete_announcement "65f0c1" "t1" s' =
      (inl (HTTPException 404 "Announcement not found"), s').
Proof.
  pose proof (create_announcement_known clock_feb1 "65f0c1"
                (AnnouncementCreate.mk "Exam" "Midterm" None "2025-03-10")
                "t1" store_dated (t1_known _)) as E.
  change (validate_create _) with (@inr exn unit tt) in E.
  cbv beta iota zeta in E.
  eexists _, _. split; [exact E|].
  assert (N : forall x, x ∈ announcements_collection store_dated ->
                        x !! "_id" <> Some (VStr "65f0c1")).
  { intros x Hx. apply list_elem_of_In in Hx.
    destruct Hx as [<- | []]. by vm_compute. }
  destruct (created_id_not_found _ _ _ _ _ _ _ no_fields E N)
    as (Hid & _ & Hd).
  split; [exact Hid | exact Hd].
Defined.

(** X8: a created announcement is shown by the active listing exactly on
    the days of its window.  Whenever the listing of the store after the
    create returns, it contains the stored record if and only if today is
    not after the expiration date and, when a start date was given (and is
    not empty), not before the start date.  So an announcement created
    with an expiration date in the past is stored but never listed. *)
Theorem creation_window (utcnow clock : datetime) (oid : string)
    (c : AnnouncementCreate.t) (teacher_username : string) (s s' : db)
    (d : document) :
  create_announcement utcnow oid c teacher_username s = (inr d, s') ->
  exists stored,
    announcements_collection s' =
      (announcements_collection s ++ [stored])%list /\
    forall l, fst (get_announcements clock s') = inr l ->
      (stored ∈ l <-> in_window (dt_date clock) c).
Proof.
  intros H.
  destruct (create_stored _ _ _ _ _ _ _ H)
    as (_ & V & _ & stored & E & _ & _ & Gexp & Gst).
  exists stored. split; [done|]. intros l Hl.
  rewrite get_announcements_eq in Hl. simpl in Hl.
  apply sort_desc_perm in Hl. rewrite <- Hl.
  rewrite list_elem_of_In, filter_In, <- list_elem_of_In, E.
  assert (In_s : stored ∈ (announcements_collection s ++ [stored])%list).
  { apply elem_of_app. right. by left. }
  set (today := dt_date clock).
  enough (keeps today stored = true <-> in_window today c) by tauto.
  unfold keeps, in_window, parses_to.
  destruct (validate_create_cases c)
    as [(err & He & V') | (dte & He & V')]; [congruence|].
  destruct (check_expiration_cases today stored)
    as [(dt & E1 & ->) | ((e & E1) & _)]; rewrite Gexp in E1;
    [|congruence].
  rewrite He in E1. injection E1 as <-.
  destruct (date_ltb (dt_date dte) today) eqn:Lt.
  { split; [done|]. intros [(de & (dt & E1 & <-) & Hn) _].
    rewrite He in E1. injection E1 as <-.
    apply date_ltb_lt in Lt. done. }
  assert (Hexp : exists de,
            (exists dt, strptime (VStr (AnnouncementCreate.expiration_date c))
                          = inr dt /\ dt_date dt = de) /\
            ~ date_lt de today).
  { exists (dt_date dte). split; [by exists dte|].
    intros Hlt. apply date_ltb_lt in Hlt. congruence. }
  destruct (check_start_cases today stored)
    as [(T & ->) | (T & [(dt' & E' & ->) | ((e' & E') & ->)])];
    rewrite Gst in T; try rewrite Gst in E'.
  - split; [|done]. intros _. split; [done|].
    destruct (AnnouncementCreate.start_date c) as [x|]; [|by left].
    right. left. simpl in T. apply negb_false_iff in T.
    by apply String.eqb_eq in T as ->.
  - destruct (AnnouncementCreate.start_date c) as [x|] eqn:N; [|done].
    cbn [of_opt] in E'.
    destruct (date_gtb (dt_date dt') today) eqn:Gt.
    + split; [done|]. intros [_ [? | [[= ->] | (y & ds & [= <-] & P & Hn)]]];
        try done.
      destruct P as (dt & E2 & <-). rewrite E' in E2. injection E2 as <-.
      apply date_gtb_lt in Gt. done.
    + split; [|done]. intros _. split; [done|]. do 2 right.
      exists x, (dt_date dt'). split; [done|]. split; [by exists dt'|].
      intros Hlt. apply date_gtb_lt in Hlt. congruence.
  - exfalso.
    destruct V' as [(T' & _) | (_ & [(err & Hs & V') | (dts & Hs & _)])];
      congruence.
Qed.

Lemma creation_window_witness :
  exists d s',
    create_announcement clock_feb1 "65f0c1"
      (AnnouncementCreate.mk "Old" "Long gone" None "1999-12-31")
      "t1" store_dated = (inr d, s') /\
    exists stored,
      announcements_collection s' = [dated; stored] /\
      forall l, fst (get_announcements clock_feb1 s') = inr l ->
                stored ∉ l.
Proof.
  pose proof (create_announcement_known clock_feb1 "65f0c1"
                (AnnouncementCreate.mk "Old" "Long gone" None "1999-12-31")
                "t1" store_dated (t1_known _)) as E.
  change (validate_create _) with (@inr exn unit tt) in E.
  cbv beta iota zeta in E.
  eexists _, _. split; [exact E|].
  destruct (creation_window clock_feb1 clock_feb1 _ _ _ _ _ _ E)
    as (stored & Es & Hw).
  exists stored. split; [exact Es|].
  intros l Hl Hin. apply (Hw l Hl) in Hin.
  destruct Hin as [(de & (dt & Hp & <-) & Hn) _].
  vm_compute in Hp. injection Hp as <-.
  apply Hn. apply date_ltb_lt. reflexivity.
Defined.

(** ** More on the order of the listings *)

Section SortFilter.
Context {A : Type} (key : A -> value) (p : A -> bool).

Lemma insert_desc_head x l :
  Forall (above key x) l -> insert_desc key x l = inr (x :: l).
Proof.
  destruct 1 as [|y l Hy _]; simpl; [done|].
  unfold above in Hy. by rewrite Hy.
Qed.

Lemma insert_desc_filter_out x l r :
  insert_desc key x l = inr r -> p x = false ->
  List.filter p r = List.filter p l.
Proof.
  intros H Hx. revert r H. induction l as [|y l IH]; simpl; intros r.
  - intros [= <-]. simpl. by rewrite Hx.
  - destruct (lt (key x) (key y)) as [e|[]]; simpl; [done| |].
    + destruct (insert_desc key x l) as [e|r0]; simpl; [done|].
      intros [= <-]. simpl. by rewrite (IH r0 eq_refl).
    + intros [= <-]. simpl. by rewrite Hx.
Qed.

Lemma insert_desc_filter_in x l r :
  StronglySorted (above key) l ->
  insert_desc key x l = inr r -> p x = true ->
  insert_desc key x (List.filter p l) = inr (List.filter p r).
Proof.
  intros Hl H Hx. revert r H.
  induction Hl as [|y l Hl IH Hy]; simpl; intros r.
  - intros [= <-]. simpl. by rewrite Hx.
  - destruct (lt (key x) (key y)) as [e|[]] eqn:E; simpl; [done| |].
    + destruct (insert_desc key x l) as [e|r0]; simpl; [done|].
      intros [= <-]. simpl. destruct (p y); simpl.
      * by rewrite E, (IH r0 eq_refl).
      * by apply IH.
    + intros [= <-]. simpl. rewrite Hx.
      apply insert_desc_head.
      assert (Hall : Forall (above key x) (y :: l)).
      { constructor; [done|]. eapply Forall_impl; [exact Hy|].
        intros z Hz. by apply (lt_false_trans _ (key y)). }
      apply Forall_forall. intros z Hz.
      rewrite Forall_forall in Hall. apply Hall.
      change (z ∈ List.filter p (y :: l)) in Hz.
      apply list_elem_of_In, filter_In in Hz as [Hz _].
      by apply list_elem_of_In.
Qed.

(** Sorting and filtering commute: the sort is stable and compares keys
    only. *)
Lemma sort_desc_filter l l' :
  sort_desc key l = inr l' ->
  sort_desc key (List.filter p l) = inr (List.filter p l').
Proof.
  revert l'. induction l as [|x l IH]; simpl; intros l'.
  - by intros [= <-].
  - destruct (sort_desc key l) as [e|m] eqn:Em; simpl; [done|].
    intros H. specialize (IH m eq_refl).
    destruct (p x) eqn:Hx; simpl.
    + rewrite IH. simpl. apply insert_desc_filter_in; [|done|done].
      by apply (sort_desc_sorted key l).
    + by rewrite IH, (insert_desc_filter_out _ _ _ H Hx).
Qed.
End SortFilter.

Lemma string_ltb_irrefl a : String.ltb a a = false.
Proof.
  destruct (String.ltb a a) eqn:E; [|done].
  by rewrite (string_ltb_asym _ _ E) in E.
Qed.

Lemma lt_irrefl a : lt a a <> inr true.
Proof. destruct a; simpl; try done; by rewrite string_ltb_irrefl. Qed.

(** Sorting leaves a list of equal keys as it is. *)
Lemma sort_desc_same_key {A : Type} (key : A -> value) k l r :
  Forall (fun z => key z = k) l -> sort_desc key l = inr r -> r = l.
Proof.
  intros Hl. revert r. induction Hl as [|x l Hx Hl IH]; simpl; intros r.
  - by intros [= <-].
  - destruct (sort_desc key l) as [e|m]; simpl; [done|].
    rewrite (IH m eq_refl). destruct Hl as [|y l Hy _]; simpl.
    + by intros [= <-].
    + rewrite Hx, Hy. destruct (lt k k) as [e|[]] eqn:E; simpl; try done.
      * by apply lt_irrefl in E.
      * by intros [= <-].
Qed.

Lemma sort_desc_with_key l l' k :
  sort_desc created_at_key l = inr l' -> with_key k l' = with_key k l.
Proof.
  intros H. unfold with_key.
  apply (sort_desc_filter created_at_key
           (fun a => bool_decide (created_at_key a = k))) in H.
  apply (sort_desc_same_key created_at_key k) in H; [done|].
  apply Forall_forall. intros z Hz.
  apply list_elem_of_In, filter_In in Hz as [_ Hz].
  by apply bool_decide_eq_true in Hz.
Qed.

(** X9: the active listing is the full listing with the inactive records
    taken out, nothing reordered: whenever [list_all] returns for a known
    teacher, [list_active] returns the records of that result that pass
    the date checks, in the same order. *)
Theorem active_is_filter_of_all (utcnow : datetime)
    (teacher_username : string) (s : db) (all : list document) :
  known_teacher teacher_username s ->
  fst (get_all_announcements teacher_username s) = inr all ->
  get_announcements utcnow s =
    (inr (List.filter (keeps (dt_date utcnow)) all), s) /\
  forall a, a ∈ List.filter (keeps (dt_date utcnow)) all <->
            a ∈ all /\ ~ excluded (dt_date utcnow) a.
Proof.
  intros K H. rewrite (get_all_announcements_eq _ _ K) in H. simpl in H.
  rewrite get_announcements_eq.
  rewrite (sort_desc_filter _ _ _ _ H). split; [done|]. apply kept_spec.
Qed.

Lemma active_is_filter_of_all_witness :
  known_teacher "t1" store_dated /\
  fst (get_all_announcements "t1" store_dated) = inr [dated] /\
  get_announcements clock_feb1 store_dated = (inr [dated], store_dated).
Proof.
  assert (K : known_teacher "t1" store_dated) by apply t1_known.
  assert (H : fst (get_all_announcements "t1" store_dated) = inr [dated])
    by reflexivity.
  do 2 (split; [done|]).
  exact (proj1 (active_is_filter_of_all clock_feb1 "t1" store_dated
                  [dated] K H)).
Defined.

(** X10: ties keep the order of the store.  In whatever [list_all] and
    [list_active] return, the records that share a [created_at] value (or
    lack one) stand in the order in which the store holds them. *)
Theorem listings_stable (utcnow : datetime) (teacher_username : string)
    (s : db) (k : value) :
  (forall l, fst (get_all_announcements teacher_username s) = inr l ->
     with_key k l = with_key k (announcements_collection s)) /\
  (forall l, fst (get_announcements utcnow s) = inr l ->
     with_key k l =
       with_key k (List.filter (keeps (dt_date utcnow))
                     (announcements_collection s))).
Proof.
  split.
  - intros l H.
    destruct (known_teacher_dec teacher_username s) as [K|N].
    + rewrite (get_all_announcements_eq _ _ K) in H.
      by apply sort_desc_with_key.
    + apply unknown_teacher_not_found in N. exfalso. revert H.
      unfold get_all_announcements. run. by rewrite N.
  - intros l H. rewrite get_announcements_eq in H.
    by apply sort_desc_with_key.
Qed.

Section SortComparable.
Context {A : Type} (key : A -> value).

Lemma lt_defined a b r :
  lt a b = inr r ->
  (exists s t, a = VStr s /\ b = VStr t) \/
  (exists s t, a = VObjectId s /\ b = VObjectId t).
Proof. destruct a, b; simpl; intros [=]; eauto. Qed.

Lemma insert_desc_oid x l :
  oid_key key x -> Forall (oid_key key) l ->
  exists l', insert_desc key x l = inr l'.
Proof.
  intros (t & Hx). induction 1 as [|y l (u & Hy) _ IH]; simpl; [eauto|].
  rewrite Hx, Hy. simpl. destruct (String.ltb t u); [|eauto].
  destruct IH as (r & ->). simpl. eauto.
Qed.

Lemma sort_desc_oid l :
  Forall (oid_key key) l -> exists l', sort_desc key l = inr l'.
Proof.
  induction 1 as [|x l Hx Hl IH]; simpl; [eauto|].
  destruct IH as (r & E). rewrite E. simpl.
  apply insert_desc_oid; [done|].
  apply sort_desc_perm in E. by rewrite <- E.
Qed.

Lemma text_not_oid x : text_key key x -> oid_key key x -> False.
Proof. intros (t & Ht) (h & Hh). congruence. Qed.

(** A list of two or more elements can only be sorted when its keys can
    be compared with each other. *)
Lemma sort_desc_comparable l l' :
  sort_desc key l = inr l' -> (2 <= length l)%nat -> comparable_keys key l.
Proof.
  revert l'. induction l as [|x l IH]; simpl; intros l' H Hlen; [lia|].
  destruct (sort_desc key l) as [e|m] eqn:Em; simpl in H; [done|].
  pose proof (sort_desc_perm _ _ _ Em) as Hp.
  destruct m as [|y m].
  { apply Permutation_nil_r in Hp. subst l. simpl in Hlen. lia. }
  assert (Hy : y ∈ l) by (rewrite Hp; by left).
  simpl in H. destruct (lt (key x) (key y)) as [e|b] eqn:E; [done|].
  assert (Hl : (2 <= length l)%nat -> comparable_keys key l)
    by (intros; by apply (IH (y :: m))).
  destruct l as [|z l]; [by apply elem_of_nil in Hy|].
  destruct l as [|z' l].
  { apply list_elem_of_singleton in Hy as ->.
    apply lt_defined in E as [(s0 & t0 & Hx & Hz) | (s0 & t0 & Hx & Hz)].
    - left. repeat constructor; by eexists.
    - right. repeat constructor; by eexists. }
  destruct Hl as [Hl | Hl]; [simpl; lia | |].
  - left. constructor; [|done].
    rewrite Forall_forall in Hl. specialize (Hl y Hy).
    apply lt_defined in E as [(s0 & t0 & Hx & _) | (s0 & t0 & _ & Hy')].
    + by eexists.
    + exfalso. apply (text_not_oid y); [done | by eexists].
  - right. constructor; [|done].
    rewrite Forall_forall in Hl. specialize (Hl y Hy).
    apply lt_defined in E as [(s0 & t0 & _ & Hy') | (s0 & t0 & Hx & _)].
    + exfalso. apply (text_not_oid y); [by eexists | done].
    + by eexists.
Qed.

Lemma sort_desc_short l :
  (length l <= 1)%nat -> sort_desc key l = inr l.
Proof. destruct l as [|x [|y l]]; simpl; (done || lia). Qed.

Lemma sort_desc_returns l :
  (exists l', sort_desc key l = inr l') <->
  (length l <= 1)%nat \/ comparable_keys key l.
Proof.
  split.
  - intros (l' & H).
    destruct (le_lt_dec (length l) 1) as [Hs|Hs]; [by left|].
    right. apply (sort_desc_comparable l l' H). lia.
  - intros [Hs | [Ht | Ho]].
    + rewrite sort_desc_short by done. eauto.
    + by apply sort_desc_text.
    + by apply sort_desc_oid.
Qed.
Lemma sort_desc_raises l :
  sort_desc key l = inl TypeError <->
  (2 <= length l)%nat /\ ~ comparable_keys key l.
Proof.
  split.
  - intros H. split.
    + destruct (le_lt_dec (length l) 1) as [Hs|Hs]; [|lia].
      rewrite sort_desc_short in H by done. done.
    + intros Hc. destruct (proj2 (sort_desc_returns l)) as (l' & Hl');
        [by right | congruence].
  - intros [Hlen Hn].
    destruct (sort_desc key l) as [e|l'] eqn:E.
    + by rewrite (sort_desc_raises_TypeError _ _ _ E).
    + exfalso. apply Hn. by apply (sort_desc_comparable l l').
Qed.
End SortComparable.

Lemma null_key_not_comparable (l : list document) a :
  a ∈ l -> a !! "created_at" = Some VNone ->
  ~ comparable_keys created_at_key l.
Proof.
  intros Ha Hn [H | H]; rewrite Forall_forall in H;
    destruct (H a Ha) as (t & Ht);
    unfold created_at_key, get_default in Ht; by rewrite Hn in Ht.
Qed.

(** X11: a null [created_at] breaks the listings.  For a known teacher
    [list_all] returns whenever the store holds at most one record or the
    [created_at] of every record is a string or absent; it raises
    [TypeError] whenever the store holds two records or more and one of
    them has a null [created_at], the default of the sort key covering
    only the absent key.  The same holds for [list_active] and the records
    it keeps. *)
Theorem listing_sort_failure (utcnow : datetime) (teacher_username : string)
    (s : db) :
  known_teacher teacher_username s ->
  let all := announcements_collection s in
  let kept := List.filter (keeps (dt_date utcnow)) all in
  ((length all <= 1)%nat \/ Forall created_at_text all ->
   exists l, fst (get_all_announcements teacher_username s) = inr l) /\
  ((2 <= length all)%nat ->
   (exists a, a ∈ all /\ a !! "created_at" = Some VNone) ->
   fst (get_all_announcements teacher_username s) = inl TypeError) /\
  ((length kept <= 1)%nat \/ Forall created_at_text kept ->
   exists l, fst (get_announcements utcnow s) = inr l) /\
  ((2 <= length kept)%nat ->
   (exists a, a ∈ kept /\ a !! "created_at" = Some VNone) ->
   fst (get_announcements utcnow s) = inl TypeError).
Proof.
  intros K all kept.
  rewrite (get_all_announcements_eq _ _ K), get_announcements_eq.
  simpl. fold all. fold kept.
  assert (R : forall l : list document,
            (length l <= 1)%nat \/ Forall created_at_text l ->
            exists l', sort_desc created_at_key l = inr l').
  { intros l [Hs | Ht]; apply sort_desc_returns; [by left|].
    right. left. eapply Forall_impl; [exact Ht|].
    apply created_at_text_key. }
  assert (T : forall l : list document,
            (2 <= length l)%nat ->
            (exists a, a ∈ l /\ a !! "created_at" = Some VNone) ->
            sort_desc created_at_key l = inl TypeError).
  { intros l Hlen (a & Ha & Hn). apply sort_desc_raises.
    split; [done|]. by apply (null_key_not_comparable l a). }
  split; [apply R|]. split; [apply T|]. split; [apply R | apply T].
Qed.

Lemma listing_sort_failure_witness :
  known_teacher "t1" store_null_created_at /\
  fst (get_all_announcements "t1" store_null_created_at) = inl TypeError.
Proof.
  assert (K : known_teacher "t1" store_null_created_at) by apply t1_known.
  split; [done|].
  destruct (listing_sort_failure clock_feb1 "t1" store_null_created_at K)
    as (_ & T & _).
  apply T.
  - change (2 <= 2)%nat. lia.
  - exists (null_created_at "a2"). split; [by left | reflexivity].
Defined.

(** ** Timestamps *)

Lemma string_compare_app a b x y :
  String.length a = String.length b ->
  String.compare (a ++ x) (b ++ y)
    = lex (String.compare a b) (String.compare x y).
Proof.
  revert b. induction a as [|c a IH]; intros [|c' b]; simpl; try done.
  intros [= H]. rewrite (IH b H). by destruct (Ascii.compare c c').
Qed.

Lemma append_cons c a b : String c a ++ b = String c (a ++ b).
Proof. reflexivity. Qed.

Lemma string_compare_cons c x y :
  String.compare (String c x) (String c y) = String.compare x y.
Proof.
  simpl. unfold Ascii.compare. by rewrite N.compare_refl.
Qed.

Lemma string_compare_sep c p q x y :
  String.length p = String.length q ->
  String.compare (String c "" ++ p ++ x) (String c "" ++ q ++ y)
    = lex (String.compare p q) (String.compare x y).
Proof.
  intros H. rewrite !append_cons, string_compare_cons.
  change ("" ++ p ++ x) with (p ++ x). change ("" ++ q ++ y) with (q ++ y).
  by apply string_compare_app.
Qed.

Lemma string_length_app a b :
  String.length (a ++ b) = (String.length a + String.length b)%nat.
Proof. induction a as [|c a IH]; simpl; [done | by rewrite IH]. Qed.

Lemma zero_pad_length w n : String.length (zero_pad w n) = w.
Proof.
  revert n. induction w as [|w IH]; intros n; simpl; [done|].
  rewrite string_length_app, IH. simpl. lia.
Qed.

Lemma digit_char_compare n m :
  Ascii.compare (digit_char n) (digit_char m) = (n mod 10 ?= m mod 10).
Proof.
  unfold Ascii.compare, digit_char.
  pose proof (Z.mod_pos_bound n 10 ltac:(lia)).
  pose proof (Z.mod_pos_bound m 10 ltac:(lia)).
  rewrite !N_ascii_embedding by lia.
  rewrite Z2N.inj_compare by lia.
  apply Z.add_compare_mono_l.
Qed.

Lemma zero_pad_compare w n m :
  0 <= n < 10 ^ Z.of_nat w -> 0 <= m < 10 ^ Z.of_nat w ->
  String.compare (zero_pad w n) (zero_pad w m) = (n ?= m).
Proof.
  revert n m. induction w as [|w IH]; intros n m Hn Hm.
  - simpl in *. assert (n = 0) as -> by lia. by assert (m = 0) as -> by lia.
  - rewrite Nat2Z.inj_succ, Z.pow_succ_r in Hn, Hm by lia.
    cbn [zero_pad].
    rewrite string_compare_app by (by rewrite !zero_pad_length).
    rewrite IH by (split; [apply Z.div_pos | apply Z.div_lt_upper_bound]; lia).
    simpl. rewrite digit_char_compare.
    pose proof (Z.div_mod n 10 ltac:(lia)).
    pose proof (Z.div_mod m 10 ltac:(lia)).
    pose proof (Z.mod_pos_bound n 10 ltac:(lia)).
    pose proof (Z.mod_pos_bound m 10 ltac:(lia)).
    unfold lex.
    destruct (Z.compare_spec (n / 10) (m / 10));
      destruct (Z.compare_spec (n mod 10) (m mod 10)); symmetry;
      first [apply Z.compare_eq_iff | apply Z.compare_lt_iff
            | apply Z.compare_gt_iff]; lia.
Qed.

Lemma days_in_month_le y m : days_in_month y m <= 31.
Proof.
  unfold days_in_month.
  repeat match goal with |- context [if ?b then _ else _] => destruct b end;
    lia.
Qed.

Lemma valid_date_bounds y m d :
  valid_date y m d = true -> 0 <= y < 10000 /\ 0 <= m < 100 /\ 0 <= d < 100.
Proof.
  unfold valid_date. rewrite !andb_true_iff, !Z.leb_le.
  pose proof (days_in_month_le y m). lia.
Qed.

(** The fraction and the offset at the end of a timestamp compare as the
    microseconds do: without a fraction, the [+] of the offset stands
    where the other has the point. *)
Lemma fraction_compare a b :
  0 <= a < 1000000 -> 0 <= b < 1000000 ->
  String.compare
    ((if a =? 0 then "" else "." ++ zero_pad 6 a) ++ "+00:00")
    ((if b =? 0 then "" else "." ++ zero_pad 6 b) ++ "+00:00")
  = (a ?= b).
Proof.
  intros Ha Hb.
  destruct (Z.eqb_spec a 0) as [->|Na], (Z.eqb_spec b 0) as [->|Nb].
  - done.
  - cbn [String.append]. symmetry. apply Z.compare_lt_iff. lia.
  - cbn [String.append]. symmetry. apply Z.compare_gt_iff. lia.
  - rewrite !append_cons, string_compare_cons.
    change ("" ++ zero_pad 6 a) with (zero_pad 6 a).
    change ("" ++ zero_pad 6 b) with (zero_pad 6 b).
    rewrite string_compare_app by (by rewrite !zero_pad_length).
    rewrite (zero_pad_compare 6) by (simpl; lia).
    by destruct (a ?= b).
Qed.

(** Timestamps in ISO format compare as strings the way the clock
    readings compare in time. *)
Lemma isoformat_compare a b :
  valid_clock a -> valid_clock b ->
  String.compare (isoformat a) (isoformat b) = datetime_compare a b.
Proof.
  intros (Da & Ha & Ma & Sa & Ua) (Db & Hb & Mb & Sb & Ub).
  apply valid_date_bounds in Da as (Ya & Moa & Daa).
  apply valid_date_bounds in Db as (Yb & Mob & Dab).
  unfold isoformat, datetime_compare, date_compare.
  rewrite string_compare_app by (by rewrite !zero_pad_length).
  rewrite !string_compare_sep by (by rewrite !zero_pad_length).
  rewrite (zero_pad_compare 4) by (simpl; lia).
  rewrite !(zero_pad_compare 2) by (simpl; lia).
  rewrite (fraction_compare (microsecond a) (microsecond b)) by done.
  destruct (year (dt_date a) ?= year (dt_date b));
    destruct (month (dt_date a) ?= month (dt_date b));
    destruct (day (dt_date a) ?= day (dt_date b));
    destruct (hour a ?= hour b); destruct (minute a ?= minute b);
    destruct (second a ?= second b); reflexivity.
Qed.

(** X12: the listings' order is the order of creation.  The [created_at]
    of two records made by create compare as sort keys exactly as the
    clock readings of their creation compare in time, whether or not a
    reading has microseconds; so of two created records the one created
    later sorts first. *)
Theorem created_at_chronological (a b : datetime) (oid1 oid2 : string)
    (c1 c2 : AnnouncementCreate.t) (u1 u2 : string) (s1 s1' s2 s2' : db)
    (d1 d2 : document) :
  valid_clock a -> valid_clock b ->
  create_announcement a oid1 c1 u1 s1 = (inr d1, s1') ->
  create_announcement b oid2 c2 u2 s2 = (inr d2, s2') ->
  created_at_key d1 = VStr (isoformat a) /\
  created_at_key d2 = VStr (isoformat b) /\
  (lt (created_at_key d1) (created_at_key d2) = inr true <->
   datetime_compare a b = Lt).
Proof.
  intros Va Vb H1 H2.
  assert (K : forall n oid c u s d s',
            create_announcement n oid c u s = (inr d, s') ->
            created_at_key d = VStr (isoformat n)).
  { intros n oid c u s d s' H.
    destruct (create_stored _ _ _ _ _ _ _ H) as (K & V & _).
    rewrite (create_announcement_known _ _ _ _ _ K), V in H.
    cbv zeta in H. injection H as <- _.
    unfold created_at_key, get_default. simpl. by simplify_map_eq. }
  rewrite (K _ _ _ _ _ _ _ H1), (K _ _ _ _ _ _ _ H2).
  do 2 (split; [done|]). simpl. unfold String.ltb.
  rewrite (isoformat_compare a b Va Vb).
  by destruct (datetime_compare a b).
Qed.

Lemma created_at_chronological_witness :
  valid_clock clock_feb1 /\ valid_clock clock_later /\
  exists d1 s1 d2 s2,
    create_announcement clock_feb1 "65f0c1"
      (AnnouncementCreate.mk "Exam" "Midterm" None "2025-03-10")
      "t1" store_dated = (inr d1, s1) /\
    create_announcement clock_later "65f0c2"
      (AnnouncementCreate.mk "Trip" "Bus 4" None "2025-03-10")
      "t1" store_dated = (inr d2, s2) /\
    lt (created_at_key d1) (created_at_key d2) = inr true.
Proof.
  assert (Va : valid_clock clock_feb1).
  { split; [reflexivity|]. unfold clock_feb1; simpl; lia. }
  assert (Vb : valid_clock clock_later).
  { split; [reflexivity|]. unfold clock_later; simpl; lia. }
  do 2 (split; [done|]).
  pose proof (create_announcement_known clock_feb1 "65f0c1"
                (AnnouncementCreate.mk "Exam" "Midterm" None "2025-03-10")
                "t1" store_dated (t1_known _)) as E1.
  change (validate_create _) with (@inr exn unit tt) in E1.
  cbv beta iota zeta in E1.
  pose proof (create_announcement_known clock_later "65f0c2"
                (AnnouncementCreate.mk "Trip" "Bus 4" None "2025-03-10")
                "t1" store_dated (t1_known _)) as E2.
  change (validate_create _) with (@inr exn unit tt) in E2.
  cbv beta iota zeta in E2.
  eexists _, _, _, _. split; [exact E1|]. split; [exact E2|].
  apply (created_at_chronological _ _ _ _ _ _ _ _ _ _ _ _ _ _ Va Vb E1 E2).
  reflexivity.
Defined.

(** ** What updates do to the dates *)

(** X14: blanking the expiration date hides an announcement.  After any
    successful update that supplies the empty string as expiration date,
    whatever else it supplies, the active listing never contains the
    record, at whatever time it is asked: the record stays in the store,
    unlisted. *)
Theorem blank_expiration_hides (announcement_id teacher_username : string)
    (u : AnnouncementUpdate.t) (s s' : db) (doc : document)
    (r : option document) (clock : datetime) :
  known_teacher teacher_username s ->
  find_one announcement_id (announcements_collection s) = Some doc ->
  AnnouncementUpdate.expiration_date u = Some "" ->
  update_announcement announcement_id u teacher_username s = (inr r, s') ->
  exists doc',
    r = Some doc' /\ doc' ∈ announcements_collection s' /\
    forall l, fst (get_announcements clock s') = inr l -> doc' ∉ l.
Proof.
  intros K F B H.
  destruct (update_announcement_found _ u _ _ _ K F)
    as (pre & post & E & Hpre & _ & R).
  rewrite R in H. clear R.
  destruct (validate_update _ doc) as [e|[]]; [done|].
  assert (W : supplies_field u) by (do 3 right; by rewrite B).
  apply supplies_field_truthy in W. rewrite W in H.
  case_bool_decide; [done|]. injection H as <- <-.
  eexists. split; [done|]. simpl. split.
  { apply elem_of_app. right. by left. }
  intros l Hl Hin. rewrite get_announcements_eq in Hl. simpl in Hl.
  apply sort_desc_perm in Hl. rewrite <- Hl in Hin.
  apply list_elem_of_In, filter_In in Hin as [_ Hk].
  unfold keeps in Hk.
  destruct (check_expiration_cases (dt_date clock) (prepare_update u ∪ doc))
    as [(dt & E1 & _) | (_ & E1)]; [|by rewrite E1 in Hk].
  unfold get in E1.
  rewrite (merged_lookup _ _ _ (Some "")) in E1
    by (by rewrite prepare_update_lookup, B).
  done.
Qed.

Lemma blank_expiration_hides_witness :
  known_teacher "t1" store_dated /\
  find_one "a4" (announcements_collection store_dated) = Some dated /\
  exists r s',
    update_announcement "a4"
      (AnnouncementUpdate.mk (Some "Quiz") None (Some "2025-02-10") (Some ""))
      "t1" store_dated = (inr r, s') /\
    exists doc',
      r = Some doc' /\ doc' ∈ announcements_collection s' /\
      forall l, fst (get_announcements clock_feb1 s') = inr l -> doc' ∉ l.
Proof.
  assert (K : known_teacher "t1" store_dated) by apply t1_known.
  assert (F : find_one "a4" (announcements_collection store_dated)
              = Some dated) by reflexivity.
  do 2 (split; [done|]).
  destruct (update_announcement_found "a4"
              (AnnouncementUpdate.mk (Some "Quiz") None (Some "2025-02-10")
                 (Some "")) "t1" store_dated dated K F)
    as (pre & post & _ & _ & _ & R).
  change (validate_update _ dated) with (@inr exn unit tt) in R.
  change (truthy_dict _) with true in R.
  rewrite bool_decide_eq_false_2 in R.
  2:{ intros E.
      apply (f_equal (fun d : document => d !! "expiration_date")) in E.
      by vm_compute in E. }
  eexists _, _. split; [exact R|].
  exact (blank_expiration_hides "a4" "t1"
           (AnnouncementUpdate.mk (Some "Quiz") None (Some "2025-02-10")
              (Some "")) _ _ _ _ clock_feb1 K F eq_refl R).
Defined.

(** X15: a validated update keeps the dates in order.  When an update by
    a known teacher supplies a date that is not empty and succeeds, and
    the record afterwards has both a start date and an expiration date
    that test true, then these two parse and the start is strictly before
    the expiration: the check was made on the values that end up
    stored. *)
Theorem validated_update_ordered (announcement_id teacher_username : string)
    (u : AnnouncementUpdate.t) (s s' : db) (doc doc' : document) :
  known_teacher teacher_username s ->
  find_one announcement_id (announcements_collection s) = Some doc ->
  truthy (of_opt (AnnouncementUpdate.expiration_date u)) = true \/
  truthy (of_opt (AnnouncementUpdate.start_date u)) = true ->
  update_announcement announcement_id u teacher_username s
    = (inr (Some doc'), s') ->
  truthy (get doc' "start_date") = true ->
  truthy (get doc' "expiration_date") = true ->
  pair_ok (get doc' "start_date") (get doc' "expiration_date").
Proof.
  intros K F Req H Ts Te.
  destruct (update_announcement_found _ u _ _ _ K F)
    as (pre & post & E & Hpre & _ & R).
  rewrite R in H. clear R.
  destruct (validate_update u doc) as [e|[]] eqn:V; [done|].
  assert (W : supplies_field u).
  { destruct u as [? ? [x|] [y|]]; simpl in Req.
    - by do 3 right. - by do 2 right; left. - by do 3 right.
    - by destruct Req. }
  apply supplies_field_truthy in W. rewrite W in H.
  case_bool_decide; [done|]. injection H as <- _.
  rewrite validate_update_eq in V.
  apply orb_true_iff in Req. rewrite Req in V. cbv zeta in V.
  assert (R : forall k supplied,
            prepare_update u !! k = VStr <$> supplied ->
            truthy (get (prepare_update u ∪ doc) k) = true ->
            py_or (of_opt supplied) (get doc k)
              = get (prepare_update u ∪ doc) k).
  { intros k supplied Hk. unfold get. rewrite (merged_lookup _ _ _ _ Hk).
    destruct supplied as [v|]; simpl; [|done].
    unfold py_or. simpl. by intros ->. }
  rewrite (R "expiration_date" (AnnouncementUpdate.expiration_date u)) in V
    by (by rewrite ?prepare_update_lookup).
  rewrite (R "start_date" (AnnouncementUpdate.start_date u)) in V
    by (by rewrite ?prepare_update_lookup).
  rewrite Te, Ts in V. simpl in V.
  set (st := get (prepare_update u ∪ doc) "start_date") in *.
  set (ex := get (prepare_update u ∪ doc) "expiration_date") in *.
  unfold pair_ok, parses_to. unfold check_pair in V.
  destruct (strptime ex) as [err|dte] eqn:He; simpl in V.
  { by destruct (is_ValueError err). }
  destruct (strptime st) as [err|dts] eqn:Hs; simpl in V.
  { by destruct (is_ValueError err). }
  destruct (datetime_geb dts dte) eqn:G; [done|].
  exists (dt_date dts), (dt_date dte).
  split; [by exists dts|]. split; [by exists dte|].
  by apply (datetime_geb_parsed _ _ _ _ Hs He).
Qed.

Lemma validated_update_ordered_witness :
  known_teacher "t1" store_dated /\
  find_one "a4" (announcements_collection store_dated) = Some dated /\
  exists doc' s',
    update_announcement "a4"
      (AnnouncementUpdate.mk None None (Some "2025-02-10") None) "t1"
      store_dated = (inr (Some doc'), s') /\
    pair_ok (get doc' "start_date") (get doc' "expiration_date").
Proof.
  assert (K : known_teacher "t1" store_dated) by apply t1_known.
  assert (F : find_one "a4" (announcements_collection store_dated)
              = Some dated) by reflexivity.
  do 2 (split; [done|]).
  destruct (update_announcement_found "a4"
              (AnnouncementUpdate.mk None None (Some "2025-02-10") None)
              "t1" store_dated dated K F) as (pre & post & _ & _ & _ & R).
  change (validate_update _ dated) with (@inr exn unit tt) in R.
  change (truthy_dict _) with true in R.
  rewrite bool_decide_eq_false_2 in R.
  2:{ intros E.
      apply (f_equal (fun d : document => d !! "start_date")) in E.
      by vm_compute in E. }
  eexists _, _. split; [exact R|].
  assert (Q : truthy (of_opt None) = true \/
              truthy (of_opt (Some "2025-02-10")) = true) by (by right).
  apply (validated_update_ordered "a4" "t1"
           (AnnouncementUpdate.mk None None (Some "2025-02-10") None)
           _ _ _ _ K F Q R); reflexivity.
Defined.
